(** * The [users] service of CommitSpy-Core: identity, sessions and wallet

    A shallow embedding of [src/services/users.service.js] (the revision that
    carries [deductWallet] and [registerwithtoken]): the action handlers
    [create], [login], [resolveToken], [me], [updateMyself], [deductWallet],
    [getbygitID], [registerwithtoken] and the methods [generateJWT] and
    [transformEntity], over an explicit world (the users collection, the
    broker's cache, the clock and a log of the calls that leave the service).

    The libraries the service calls (bcryptjs, jsonwebtoken, md5, axios, the
    e-mail rule of the validator, the id generator of the store) are the
    fields of the class [Env]; everything else is a function that computes. *)

From Stdlib Require Import ZArith.
From stdpp Require Import base option list strings gmap fin_maps pretty.

Open Scope string_scope.
Open Scope list_scope.
Open Scope Z_scope.

(* ===================================================================== *)
(** ** JavaScript values and objects *)
(* ===================================================================== *)

(** The scalar values that occur in the fields of a user document, of a
    request and of a token payload.  Numbers are integral amounts ([wallet]
    and [cost] count in whole units, dates in milliseconds, [exp] in
    seconds); [VNaN] is the result of a failed numeric conversion. *)
Inductive value :=
  | VUndef
  | VNull
  | VBool (b : bool)
  | VNum (n : Z)
  | VNaN
  | VStr (s : string)
  | VDate (ms : Z).

#[global] Instance value_eq_dec : EqDecision value.
Proof. solve_decision. Defined.

(** A plain object whose fields hold scalars: a user entity, a stored
    document, a token payload, the data of the provider's answer. *)
Abbreviation doc := (gmap string value).

(** [o.k]: a missing property reads as [undefined]. *)
Definition get (k : string) (o : doc) : value := default VUndef (o !! k).

(** [if (v)], [!v], and the left operand of [a || b]: JavaScript
    truthiness. *)
Definition truthy (v : value) : bool :=
  match v with
  | VUndef | VNull | VNaN => false
  | VBool b => b
  | VNum n => negb (Z.eqb n 0)
  | VStr s => negb (String.eqb s "")
  | VDate _ => true
  end.


(** [String(v)] and the template literal [`${v}`]. *)
Definition js_String (date_toString : Z → string) (v : value) : string :=
  match v with
  | VUndef => "undefined"
  | VNull => "null"
  | VBool true => "true"
  | VBool false => "false"
  | VNum n => pretty n
  | VNaN => "NaN"
  | VStr s => s
  | VDate ms => date_toString ms
  end.

(** Unary minus, [-v]: the operand is converted to a number first. *)
Definition js_neg (ToNumber_str : string → value) (v : value) : value :=
  match v with
  | VNum n => VNum (- n)
  | VDate ms => VNum (- ms)
  | VBool true => VNum (-1)
  | VBool false | VNull => VNum 0
  | VStr s => match ToNumber_str s with VNum n => VNum (- n) | _ => VNaN end
  | VUndef | VNaN => VNaN
  end.

(* ===================================================================== *)
(** ** Errors, the world and the monad of the handlers *)
(* ===================================================================== *)

(** One entry of the [data] array of a [MoleculerClientError]. *)
Record field_detail := FieldDetail { field : string; message : string }.

#[global] Instance field_detail_eq_dec : EqDecision field_detail.
Proof. solve_decision. Defined.

(** What a handler can be rejected with.  [MoleculerClientError] is the
    error the service throws itself, with the arguments of its constructor
    ([message], [code], [type], [data]; the last two may be left out).  The
    others come from the libraries: the entity validator of moleculer-db,
    jsonwebtoken ([TokenExpiredError] is its error for a token whose [exp]
    has passed, [JsonWebTokenError] the one for every other failed check),
    the runtime ([TypeError]), bcryptjs (a plain [Error]), the store driver
    and the http client. *)
Inductive error :=
  | MoleculerClientError (msg : string) (code : Z)
      (type : option string) (data : option (list field_detail))
  | ValidationError (msg : string)
  | JsonWebTokenError (msg : string)
  | TokenExpiredError (msg : string)
  | TypeError (msg : string)
  | PlainError (msg : string)
  | StoreError (msg : string)
  | HttpError (msg : string).

#[global] Instance error_eq_dec : EqDecision error.
Proof. solve_decision. Defined.

(** How a promise settles. *)
Inductive outcome (A : Type) :=
  | Resolved (a : A)
  | Rejected (e : error).
Arguments Resolved {A} a.
Arguments Rejected {A} e.

(** The update documents the service sends: [{ "$set": fields }] and
    [{ $inc: { field: amount } }]. *)
Inductive update :=
  | USet (fields : doc)
  | UInc (fld : string) (amount : value).

(** What [resolveToken] can answer: nothing ([undefined]), [null], or a
    document. *)
Inductive reply :=
  | RUndefined
  | RNull
  | RDoc (d : doc).

#[global] Instance reply_eq_dec : EqDecision reply.
Proof. solve_decision. Defined.

(** The object [{ user }] that [transformEntity] returns. *)
Record json := Json { user : option doc }.

(** The calls that leave the service, in the order they are issued. *)
Inductive event :=
  | FindOne (fld : string) (v : value)
  | FindById (id : value)
  | Insert (entity : doc)
  | UpdateById (id : value) (u : update)
  | HttpGet (url : string) (params : doc)
  | CacheClean
  | EntityChanged (type : string) (j : json).

(** The world a handler runs in.
    - [users]: the collection behind the adapter, in insertion order;
    - [store_down]: when [Some m], the store cannot be reached and every
      adapter call is rejected with the driver's error [m];
    - [cache]: the broker's cache for [resolveToken], keyed by the token
      string, each entry with the time (ms) at which it expires;
    - [now]: the clock, in milliseconds;
    - [log]: the calls issued so far. *)
Record world := World {
  users : list doc;
  store_down : option string;
  cache : gmap string (reply * Z);
  now : Z;
  log : list event
}.

Definition set_users (us : list doc) (w : world) : world :=
  World us (store_down w) (cache w) (now w) (log w).
Definition set_cache (c : gmap string (reply * Z)) (w : world) : world :=
  World (users w) (store_down w) c (now w) (log w).
Definition set_now (t : Z) (w : world) : world :=
  World (users w) (store_down w) (cache w) t (log w).
Definition emit (ev : event) (w : world) : world :=
  World (users w) (store_down w) (cache w) (now w) (log w ++ [ev]).

(** An asynchronous computation: it runs on the world and settles. *)
Definition M (A : Type) : Type := world → outcome A * world.

Definition ret {A} (a : A) : M A := λ w, (Resolved a, w).

(** [await c] followed by [k]: a rejection of [c] is thrown past [k]. *)
Definition bind {A B} (c : M A) (k : A → M B) : M B :=
  λ w, match c w with
       | (Resolved a, w') => k a w'
       | (Rejected e, w') => (Rejected e, w')
       end.

Definition throw {A} (e : error) : M A := λ w, (Rejected e, w).

(** A promise that has settled as [o]. *)
Definition settled {A} (o : outcome A) : M A := λ w, (o, w).

(** [try { c } catch (err) { h err }]: only what is thrown inside the block,
    which includes the rejection of every promise awaited there. *)
Definition try_catch {A} (c : M A) (h : error → M A) : M A :=
  λ w, match c w with
       | (Resolved a, w') => (Resolved a, w')
       | (Rejected e, w') => h e w'
       end.

(** [new Date()] *)
Definition new_Date : M Z := λ w, (Resolved (now w), w).

(** A call that leaves the service and answers nothing. *)
Definition tell (ev : event) : M unit := λ w, (Resolved (), emit ev w).

(** The handlers are written with stdpp's monad notations:
    [x ← c; k] awaits [c] and goes on with [k]; [c;; k] drops the value. *)
#[global] Instance M_ret : MRet M := @ret.
#[global] Instance M_bind : MBind M := λ A B k c, bind c k.

(** Running a handler: its settlement and the world it leaves. *)
Definition settles {A} (c : M A) (w : world) : outcome A := (c w).1.
Definition leaves {A} (c : M A) (w : world) : world := (c w).2.

(* ===================================================================== *)
(** ** The libraries the service calls *)
(* ===================================================================== *)

(** The functions of the packages the file requires, and of the process
    environment.  They are the parameters of the whole development.
    - [bcrypt_hashSync s rounds], [bcrypt_compare s hash]: bcryptjs;
    - [md5_hex s]: [crypto.createHash("md5").update(s).digest("hex")];
    - [jwt_sign payload secret]: jsonwebtoken's [sign];
    - [jwt_decode token secret]: the part of jsonwebtoken's [verify] that
      checks the signature with the secret and parses the payload ([None]
      when the token is malformed or the signature does not match);
    - [is_email s]: the validator's rule for [type: "email"], which no
      empty string passes;
    - [User_cast entity]: what the model [User] of [../models/user.model]
      makes of an entity when a document is created from it (the casting
      and the defaults of its schema); the model is not among the sources
      and nothing is assumed about it;
    - [new_id us]: the id the store gives to the next inserted document;
    - [github_user access_token token_type scope]: the answer of
      [GET https://api.github.com/user], its [data] or the failure;
    - [env_JWT_SECRET]: [process.env.JWT_SECRET];
    - [date_toString], [ToNumber_str]: the runtime's rendering of a date
      and its conversion of a string to a number. *)
Class Env := {
  bcrypt_hashSync : string → Z → string;
  bcrypt_compare : string → string → bool;
  md5_hex : string → string;
  jwt_sign : doc → string → string;
  jwt_decode : string → string → option doc;
  is_email : string → bool;
  is_email_empty : is_email "" = false;
  User_cast : doc → doc;
  new_id : list doc → string;
  github_user : string → string → string → outcome doc;
  env_JWT_SECRET : option string;
  date_toString : Z → string;
  ToNumber_str : string → value
}.

Section Service.
Context `{Env}.

(* --------------------------------------------------------------------- *)
(** *** The adapter: the users collection *)
(* --------------------------------------------------------------------- *)

(** An adapter call is written to the log; it is rejected when the store
    is down, and otherwise runs [f] on the collection. *)
Definition adapter_call {A} (ev : event)
    (f : list doc → outcome A * list doc) : M A :=
  λ w, let w' := emit ev w in
       match store_down w with
       | Some m => (Rejected (StoreError m), w')
       | None => let '(r, us) := f (users w) in (r, set_users us w')
       end.

(** The first document whose field [fld] holds [v]. *)
Definition find_by (fld : string) (v : value) (us : list doc) : option doc :=
  List.find (λ d, bool_decide (d !! fld = Some v)) us.

(** [adapter.findOne({ fld: v })]: the document or [null]. *)
Definition adapter_findOne (fld : string) (v : value) : M (option doc) :=
  adapter_call (FindOne fld v) (λ us, (Resolved (find_by fld v us), us)).

(** [adapter.findById(id)]: the document or [null]. *)
Definition adapter_findById (id : value) : M (option doc) :=
  adapter_call (FindById id) (λ us, (Resolved (find_by "_id" id us), us)).

(** [adapter.insert(entity)]: a document of the model is made from the
    entity, the store gives it its [_id], appends it and answers with the
    stored document. *)
Definition adapter_insert (entity : doc) : M doc :=
  adapter_call (Insert entity)
    (λ us, let d := <["_id" := VStr (new_id us)]> (User_cast entity) in
           (Resolved d, us ++ [d])).

(** The store's reading of an update document.  [$set] writes the given
    fields over the document.  [$inc] adds the amount to a numeric field,
    creates the field when it is missing, and is an error of the store on
    anything that is not a number. *)
Definition apply_update (u : update) (d : doc) : outcome doc :=
  match u with
  | USet fields => Resolved (fields ∪ d)
  | UInc fld (VNum n) =>
      match d !! fld with
      | None => Resolved (<[fld := VNum n]> d)
      | Some (VNum x) => Resolved (<[fld := VNum (x + n)]> d)
      | Some _ =>
          Rejected (StoreError "Cannot apply $inc to a value of non-numeric type")
      end
  | UInc _ _ => Rejected (StoreError "Cannot increment with non-numeric argument")
  end.

(** The collection after the update of the first document with this id,
    with the document as updated; [None] when no document has the id. *)
Fixpoint update_first (id : value) (u : update) (us : list doc)
    : outcome (option doc) * list doc :=
  match us with
  | [] => (Resolved None, [])
  | d :: rest =>
      if bool_decide (d !! "_id" = Some id) then
        match apply_update u d with
        | Resolved d' => (Resolved (Some d'), d' :: rest)
        | Rejected e => (Rejected e, d :: rest)
        end
      else
        let '(r, rest') := update_first id u rest in (r, d :: rest')
  end.

(** [adapter.updateById(id, update)]: one store operation, which answers
    with the document as updated, or [null] when the id is unknown. *)
Definition adapter_updateById (id : value) (u : update) : M (option doc) :=
  adapter_call (UpdateById id u) (update_first id u).

(* --------------------------------------------------------------------- *)
(** *** The broker's cache in front of an action *)
(* --------------------------------------------------------------------- *)

(** [cacher.get(key)]: the content of a live entry; an entry past its
    expiry is dropped and reads as [null]. *)
Definition cacher_get (key : string) : M reply :=
  λ w, match cache w !! key with
       | Some (r, expire) =>
           if expire <? now w
           then (Resolved RNull, set_cache (delete key (cache w)) w)
           else (Resolved r, w)
       | None => (Resolved RNull, w)
       end.

(** [cacher.set(key, data, ttl)], [ttl] in seconds. *)
Definition cacher_set (key : string) (r : reply) (ttl : Z) : M unit :=
  λ w, (Resolved (), set_cache (<[key := (r, now w + ttl * 1000)]> (cache w)) w).

(** [cacher.clean("users.**")] *)
Definition cacher_clean : M unit :=
  λ w, (Resolved (), set_cache ∅ (emit CacheClean w)).

(** The middleware of an action declared with [cache: { keys, ttl }]: a
    content found in the cache ([content != null]) is the answer and the
    handler is not called; otherwise the handler runs and what it resolves
    with is stored.  A rejection is not stored. *)
Definition cached (key : string) (ttl : Z) (handler : M reply) : M reply :=
  content ← cacher_get key;
  match content with
  | RDoc d => mret (RDoc d)
  | RUndefined | RNull =>
      result ← handler;
      cacher_set key result ttl;;
      mret result
  end.

(* --------------------------------------------------------------------- *)
(** *** Settings *)
(* --------------------------------------------------------------------- *)

(** [JWT_SECRET: process.env.JWT_SECRET || "jwt-conduit-secret"] *)
Definition JWT_SECRET : string :=
  match env_JWT_SECRET with
  | Some s => if String.eqb s "" then "jwt-conduit-secret" else s
  | None => "jwt-conduit-secret"
  end.

(** Public fields *)
Definition fields : list string :=
  ["_id"; "username"; "git_id"; "email"; "twitter"; "avatar"].

(** The rules of the validator schema that the service uses. *)
Inductive rule :=
  | RuleString (min : nat) (optional : bool)
  | RuleEmail.

(** Validator schema for entity *)
Definition entityValidator : list (string * rule) :=
  [ ("username", RuleString 2 false);
    ("git_id", RuleString 2 false);
    ("password", RuleString 6 false);
    ("email", RuleEmail);
    ("avatar", RuleString 0 true);
    ("twitter", RuleString 0 true) ].

Definition check_rule (r : rule) (v : value) : bool :=
  match r, v with
  | RuleString min _, VStr s => bool_decide (min ≤ String.length s)%nat
  | RuleString _ optional, (VUndef | VNull) => optional
  | RuleString _ _, _ => false
  | RuleEmail, VStr s => is_email s
  | RuleEmail, _ => false
  end.

(** The entity passes the schema (properties the schema does not name are
    let through). *)
Definition valid_entity (entity : doc) : bool :=
  forallb (λ '(k, r), check_rule r (get k entity)) entityValidator.

(* --------------------------------------------------------------------- *)
(** *** Methods *)
(* --------------------------------------------------------------------- *)

(** [this.validateEntity(entity)] *)
Definition validateEntity (entity : doc) : M unit :=
  if valid_entity entity then mret ()
  else throw (ValidationError "Entity validation error!").

(** The field filter of [transformDocuments]: the listed properties that
    the document defines, and nothing else. *)
Definition keep_field (d res : doc) (n : string) : doc :=
  match get n d with
  | VUndef => res
  | v => <[n := v]> res
  end.

Definition filterFields (d : doc) (names : list string) : doc :=
  foldl (keep_field d) ∅ names.

(** [this.transformDocuments(ctx, {}, doc)]: the request names no fields,
    so the document is cut down to the public fields of the settings. *)
Definition transformDocuments (d : doc) : doc := filterFields d fields.

(** [this.getById(id)]: the stored document as the adapter finds it, or
    [null]. *)
Definition getById (id : value) : M (option doc) := adapter_findById id.

(** [this.entityChanged(type, json, ctx)]: the cache of the service is
    cleaned, and the change is announced. *)
Definition entityChanged (type : string) (j : json) : M unit :=
  cacher_clean;;
  tell (EntityChanged type j).

(** sixty days, in milliseconds *)
Definition sixty_days : Z := 60 * 24 * 60 * 60 * 1000.

(** The payload [generateJWT] signs: [{ id: user._id, username:
    user.username, exp: Math.floor(exp.getTime() / 1000) }], [exp] being
    sixty days after [today]. *)
Definition token_payload (u : doc) (today : Z) : doc :=
  let exp := today + sixty_days in
  <["id" := get "_id" u]>
    (<["username" := get "username" u]>
    (<["exp" := VNum (exp / 1000)]> ∅)).

(** Generate a JWT token from user entity *)
Definition generateJWT (u : doc) : M string :=
  today ← new_Date;
  mret (jwt_sign (token_payload u today) JWT_SECRET).

(** [crypto.createHash("md5").update(v).digest("hex")] *)
Definition md5_of (v : value) : M string :=
  match v with
  | VStr s => mret (md5_hex s)
  | _ => throw (TypeError "The data argument must be of type string")
  end.

(** Transform returned user entity. Generate JWT token if neccessary. *)
Definition transformEntity (u : option doc) (withToken : bool) (token : value)
    : M json :=
  match u with
  | Some u =>
      avatar ← (if truthy (get "avatar" u) then mret (get "avatar" u)
                else h ← md5_of (get "email" u);
                     mret (VStr ("https://www.gravatar.com/avatar/" +:+ h
                                   +:+ "?d=robohash")));
      let u := <["avatar" := avatar]> u in
      if withToken then
        tok ← (if truthy token then mret token
               else t ← generateJWT u; mret (VStr t));
        mret (Json (Some (<["token" := tok]> u)))
      else mret (Json (Some u))
  | None => mret (Json None)
  end.

(** The checks of [jwt.verify] at the time [t] (ms): the signature and the
    shape are checked by [jwt_decode]; a payload with a numeric [exp] is
    expired once the clock, in seconds, has reached it. *)
Definition check_token (token secret : string) (t : Z) : outcome doc :=
  match jwt_decode token secret with
  | None => Rejected (JsonWebTokenError "invalid token")
  | Some payload =>
      match get "exp" payload with
      | VUndef | VNaN => Resolved payload
      | VNum exp =>
          if exp <=? t / 1000 then Rejected (TokenExpiredError "jwt expired")
          else Resolved payload
      | _ => Rejected (JsonWebTokenError "invalid exp value")
      end
  end.

(** [jwt.verify(token, secret, callback)], as the promise the handler
    wraps around it. *)
Definition jwt_verify (token secret : string) : M doc :=
  t ← new_Date;
  settled (check_token token secret t).

(** [bcrypt.hashSync(v, rounds)] *)
Definition hashSync (v : value) (rounds : Z) : M string :=
  match v with
  | VStr s => mret (bcrypt_hashSync s rounds)
  | _ => throw (PlainError "Illegal arguments")
  end.

(** [bcrypt.compare(s, hash)] *)
Definition compare (s : string) (hash : value) : M bool :=
  match hash with
  | VStr h => mret (bcrypt_compare s h)
  | _ => throw (PlainError "Illegal arguments")
  end.

(** [v.toString()] *)
Definition toString (v : value) : M string :=
  match v with
  | VUndef | VNull => throw (TypeError "Cannot read properties of undefined")
  | _ => mret (js_String date_toString v)
  end.

(* --------------------------------------------------------------------- *)
(** *** Actions *)
(* --------------------------------------------------------------------- *)

(** [ctx.meta]: the session token of the caller, if any, and the user the
    gateway authenticated, if any. *)
Record meta := Meta { token : value; user1 : option doc }.

(** [ctx.meta.user1._id] *)
Definition meta_user1_id (m : meta) : M value :=
  match user1 m with
  | Some u => mret (get "_id" u)
  | None => throw (TypeError "Cannot read properties of undefined")
  end.

Definition is_exist (fld : string) : list field_detail :=
  [FieldDetail fld "is exist"].

(** The uniqueness check of [create] for one property: skipped when the
    entity does not carry it. *)
Definition create_check (fld msg : string) (entity : doc) : M unit :=
  if truthy (get fld entity) then
    found ← adapter_findOne fld (get fld entity);
    match found with
    | Some _ => throw (MoleculerClientError msg 422 (Some "") (Some (is_exist fld)))
    | None => mret ()
    end
  else mret ().

(** Register a new user *)
Definition create (m : meta) (entity : doc) : M json :=
  validateEntity entity;;
  create_check "username" "Username is exist!" entity;;
  create_check "email" "Email is exist!" entity;;
  hashed ← hashSync (get "password" entity) 10;
  let entity := <["password" := VStr hashed]> entity in
  createdAt ← new_Date;
  let entity := <["createdAt" := VDate createdAt]> entity in
  d ← adapter_insert entity;
  let u := transformDocuments d in
  j ← transformEntity (Some u) true (token m);
  entityChanged "created" j;;
  mret j.

Definition email_is_not_found : list field_detail :=
  [FieldDetail "email" "is not found"].

(** Login with username & password *)
Definition login (m : meta) (email password : string) : M json :=
  u ← adapter_findOne "email" (VStr email);
  match u with
  | None =>
      throw (MoleculerClientError "Email or password is invalid!" 422
               (Some "") (Some email_is_not_found))
  | Some u =>
      res ← compare password (get "password" u);
      if negb res then
        throw (MoleculerClientError "Wrong password!" 422
                 (Some "") (Some email_is_not_found))
      else
        (* Transform user entity (remove password and all protected fields) *)
        let d := transformDocuments u in
        transformEntity (Some d) true (token m)
  end.

(** The handler of [resolveToken]. *)
Definition resolveToken_handler (tok : string) : M reply :=
  decoded ← jwt_verify tok JWT_SECRET;
  if truthy (get "id" decoded) then
    found ← getById (get "id" decoded);
    mret (match found with Some d => RDoc d | None => RNull end)
  else mret RUndefined.

(** Get user by JWT token (for API GW authentication): the action, behind
    the cache it declares ([keys: ["token"]], [ttl: 60 * 60]). *)
Definition resolveToken (tok : string) : M reply :=
  cached tok (60 * 60) (resolveToken_handler tok).

(** Get current user entity. *)
Definition me (m : meta) : M json :=
  id ← meta_user1_id m;
  u ← getById id;
  match u with
  | None => throw (MoleculerClientError "User not found!" 400 None None)
  | Some u =>
      let d := transformDocuments u in
      transformEntity (Some d) true (token m)
  end.

(** The uniqueness check of [updateMyself] for one property: another
    account, not the caller's own, holds the value. *)
Definition update_check (fld msg : string) (m : meta) (newData : doc) : M unit :=
  if truthy (get fld newData) then
    found ← adapter_findOne fld (get fld newData);
    match found with
    | Some found =>
        a ← toString (get "_id" found);
        id ← meta_user1_id m;
        b ← toString id;
        if negb (String.eqb a b) then
          throw (MoleculerClientError msg 422 (Some "") (Some (is_exist fld)))
        else mret ()
    | None => mret ()
    end
  else mret ().

(** Update current user entity. *)
Definition updateMyself (m : meta) (newData : doc) : M json :=
  update_check "username" "Username is exist!" m newData;;
  update_check "email" "Email is exist!" m newData;;
  updatedAt ← new_Date;
  let newData := <["updatedAt" := VDate updatedAt]> newData in
  id ← meta_user1_id m;
  d ← adapter_updateById id (USet newData);
  let u := transformDocuments <$> d in
  j ← transformEntity u true (token m);
  entityChanged "updated" j;;
  mret j.

Definition internal_failure : list field_detail :=
  [FieldDetail "Failure" " Internal Failure"].

(** [deductWallet].  The [try] block builds the promise of the adapter call
    and returns it without awaiting it, so the block itself completes at
    once; the promise is run when the handler settles, outside the block. *)
Definition deductWallet (payload : doc) : M (option doc) :=
  promise ← try_catch
    (let u := adapter_updateById (get "_id" payload)
                (UInc "wallet" (js_neg ToNumber_str (get "cost" payload))) in
     mret u)
    (λ err, throw (MoleculerClientError "Internal Error!" 500
                     (Some "") (Some internal_failure)));
  promise.

(** Get a user profile. *)
Definition getbygitID (id : string) : M doc :=
  u ← adapter_findOne "git_id" (VStr id);
  match u with
  | None => throw (MoleculerClientError "User not found!" 404 None None)
  | Some u => mret (transformDocuments u)
  end.

(** The parameters of [registerwithtoken]. *)
Record regtoken_params := RegToken {
  rt_password : string;
  rt_access_token : string;
  rt_scope : string;
  rt_token_type : string;
  rt_email : string
}.

(** [axios.get('https://api.github.com/user', { params })], awaited, and
    the [data] of the answer. *)
Definition axios_get_user (p : regtoken_params) : M doc :=
  tell (HttpGet "https://api.github.com/user"
          (<["access_token" := VStr (rt_access_token p)]>
          (<["token_type" := VStr (rt_token_type p)]>
          (<["scope" := VStr (rt_scope p)]> ∅))));;
  settled (github_user (rt_access_token p) (rt_token_type p) (rt_scope p)).

(** The user object that [registerwithtoken] builds from the provider's
    data and its own parameters. *)
Definition provider_user (p : regtoken_params) (data : doc) : doc :=
  <["email" := VStr (rt_email p)]>
  (<["git_id" := VStr (js_String date_toString (get "id" data))]>
  (<["username" := get "name" data]>
  (<["password" := VStr (rt_password p)]>
  (<["avatar" := get "avatar_url" data]>
  (<["twitter" := get "twitter_username" data]> ∅))))).

(** [registerwithtoken]: the whole body, the call of [users.create]
    included, runs inside one [try] block. *)
Definition registerwithtoken (m : meta) (p : regtoken_params) : M json :=
  try_catch
    (data ← axios_get_user p;
     let u := provider_user p data in
     a ← create m u;
     mret a)
    (λ err, throw (MoleculerClientError "bad details!" 422 None None)).

End Service.

(* ===================================================================== *)
(** ** Vocabulary of the statements *)
(* ===================================================================== *)

(** Some stored account holds, in the property [fld], the value the entity
    carries there. *)
Definition taken (fld : string) (entity : doc) (w : world) : Prop :=
  ∃ acc, acc ∈ users w ∧ acc !! fld = Some (get fld entity).

(** The error of a uniqueness conflict on the property [fld]. *)
Definition conflict (msg fld : string) : error :=
  MoleculerClientError msg 422 (Some "") (Some [FieldDetail fld "is exist"]).

(** The world after the cache was asked for this token: an entry past its
    expiry is gone. *)
Definition after_get (tok : string) (w : world) : world :=
  match cache w !! tok with
  | Some (_, expire) =>
      if expire <? now w then set_cache (delete tok (cache w)) w else w
  | None => w
  end.

(** The document the cache would answer with for this token: the content
    of an entry that has not expired. *)
Definition live_entry (tok : string) (w : world) : option doc :=
  match cache w !! tok with
  | Some (RDoc d, expire) => if expire <? now w then None else Some d
  | _ => None
  end.

(** The balance of an account: its numeric [wallet]; an account without
    the field counts from zero, as the store's increment does. *)
Definition wallet_of (acc : doc) : option Z :=
  match acc !! "wallet" with
  | None => Some 0
  | Some (VNum x) => Some x
  | Some _ => None
  end.

(** Every document in the cache sits under a token that the secret of the
    service decodes to a payload with a usable [id]: the cache holds
    nothing that [resolveToken] could not have put there. *)
Definition cache_sound `{Env} (w : world) : Prop :=
  ∀ tok d expire, cache w !! tok = Some (RDoc d, expire) →
    ∃ payload, jwt_decode tok JWT_SECRET = Some payload ∧
               truthy (get "id" payload) = true.

(* ===================================================================== *)
(** ** The service as a machine *)
(* ===================================================================== *)

(** A computation keeps the cache when it leaves it as it was or empties
    it; every handler but [resolveToken] does. *)
Definition cache_kept {A} (c : M A) : Prop :=
  ∀ w, cache (c w).2 = cache w ∨ cache (c w).2 = ∅.

Section Machine.
Context `{Env}.

(** A call of one of the actions. *)
Inductive call :=
  | CallCreate (m : meta) (entity : doc)
  | CallLogin (m : meta) (email password : string)
  | CallResolveToken (tok : string)
  | CallMe (m : meta)
  | CallUpdateMyself (m : meta) (newData : doc)
  | CallDeductWallet (payload : doc)
  | CallGetbygitID (id : string)
  | CallRegisterwithtoken (m : meta) (p : regtoken_params).

(** The world the call leaves. *)
Definition perform (c : call) (w : world) : world :=
  match c with
  | CallCreate m entity => leaves (create m entity) w
  | CallLogin m email password => leaves (login m email password) w
  | CallResolveToken tok => leaves (resolveToken tok) w
  | CallMe m => leaves (me m) w
  | CallUpdateMyself m newData => leaves (updateMyself m newData) w
  | CallDeductWallet payload => leaves (deductWallet payload) w
  | CallGetbygitID id => leaves (getbygitID id) w
  | CallRegisterwithtoken m p => leaves (registerwithtoken m p) w
  end.

(** What can happen to the world: an action is called; time passes; the
    store changes, fails or recovers under the hands of others; entries
    leave the cache. *)
Inductive step : world → world → Prop :=
  | step_call c w : step w (perform c w)
  | step_clock t w : step w (set_now t w)
  | step_store us down w : step w (World us down (cache w) (now w) (log w))
  | step_evict c w : c ⊆ cache w → step w (set_cache c w).

(** The worlds the service can be in: it starts with an empty cache. *)
Inductive reachable : world → Prop :=
  | reachable_start us down t : reachable (World us down ∅ t [])
  | reachable_step w w' : reachable w → step w w' → reachable w'.

End Machine.

(* ===================================================================== *)
(** ** A concrete environment and a small world *)
(* ===================================================================== *)

(** Stand-ins for the libraries, simple enough to compute with, and a world
    with one account; the examples below run the handlers on them. *)
Module Demo.

Definition has_at (s : string) : bool :=
  match String.index 0 "@" s with Some _ => true | None => false end.

Definition alice_payload (exp : Z) : doc :=
  <["id" := VStr "u1"]> (<["username" := VStr "alice"]> (<["exp" := VNum exp]> ∅)).

(** A payload for an account that is not in the store, and one without
    an [id]. *)
Definition ghost_payload : doc :=
  <["id" := VStr "u9"]> (<["username" := VStr "ghost"]> (<["exp" := VNum 9000]> ∅)).
Definition anon_payload : doc :=
  <["username" := VStr "anon"]> (<["exp" := VNum 9000]> ∅).

(** The tokens in circulation, with the payload each one carries; [exp]
    is in seconds. *)
Definition issued (tok : string) : option doc :=
  if String.eqb tok "tok-alice" then Some (alice_payload 9000)
  else if String.eqb tok "tok-alice-short" then Some (alice_payload 1600)
  else if String.eqb tok "tok-alice-old" then Some (alice_payload 1000)
  else if String.eqb tok "tok-ghost" then Some ghost_payload
  else if String.eqb tok "tok-anon" then Some anon_payload
  else None.

Definition octocat : doc :=
  <["id" := VNum 583231]> (<["name" := VStr "alice"]>
  (<["avatar_url" := VStr "https://avatars.example/583231"]>
  (<["twitter_username" := VNull]> ∅))).

Definition env : Env := {|
  bcrypt_hashSync s rounds := "$2a$" +:+ pretty rounds +:+ "$" +:+ s;
  bcrypt_compare s hash := String.eqb hash ("$2a$10$" +:+ s);
  md5_hex s := "md5(" +:+ s +:+ ")";
  jwt_sign payload secret :=
    "jwt(" +:+ js_String (λ _, "date") (get "id" payload) +:+ ","
           +:+ js_String (λ _, "date") (get "exp" payload) +:+ ")";
  jwt_decode tok secret :=
    if String.eqb secret "jwt-conduit-secret" then issued tok else None;
  is_email := has_at;
  is_email_empty := eq_refl;
  User_cast entity := entity;
  new_id us := "u" +:+ pretty (S (length us));
  github_user access_token token_type scope :=
    if String.eqb access_token "gho_valid" then Resolved octocat
    else Rejected (HttpError "Request failed with status code 401");
  env_JWT_SECRET := None;
  date_toString := λ _, "date";
  ToNumber_str := λ _, VNaN
|}.

(** The stored account of alice. *)
Definition alice : doc :=
  <["_id" := VStr "u1"]> (<["username" := VStr "alice"]>
  (<["git_id" := VStr "77"]> (<["email" := VStr "alice@example.org"]>
  (<["password" := VStr "$2a$10$s3cret!"]> (<["wallet" := VNum 100]> ∅))))).

(** One account, an empty cache, the clock at 1500 s. *)
Definition w0 : world := World [alice] None ∅ 1500000 [].

(** The same world with the store out of reach. *)
Definition w_down : world := World [alice] (Some "ECONNREFUSED") ∅ 1500000 [].

Definition anonymous : meta := Meta VUndef None.
Definition with_session : meta := Meta (VStr "caller-session") None.

(** A candidate that collides with nobody. *)
Definition bob : doc :=
  <["username" := VStr "bob"]> (<["git_id" := VStr "88"]>
  (<["password" := VStr "hunter22"]> (<["email" := VStr "bob@example.org"]> ∅))).

(** Candidates that take alice's username, her e-mail, or both. *)
Definition bob_as_alice : doc := <["username" := VStr "alice"]> bob.
Definition bob_with_alice_email : doc := <["email" := VStr "alice@example.org"]> bob.
Definition alice_again : doc := <["email" := VStr "alice@example.org"]> bob_as_alice.


(** bob as the store holds him after his registration in [w0], and the
    profile [create] answers with when the request brought a session
    token. *)
Definition bob_stored : doc :=
  <["_id" := VStr "u2"]> (<["createdAt" := VDate 1500000]>
  (<["password" := VStr "$2a$10$hunter22"]> bob)).
Definition bob_profile (tok : string) : doc :=
  <["_id" := VStr "u2"]> (<["username" := VStr "bob"]>
  (<["git_id" := VStr "88"]> (<["email" := VStr "bob@example.org"]>
  (<["avatar" := VStr "https://www.gravatar.com/avatar/md5(bob@example.org)?d=robohash"]>
  (<["token" := VStr tok]> ∅))))).

(** A sign-up through the provider, whose profile carries the name
    alice. *)
Definition carol : regtoken_params :=
  RegToken "hunter22" "gho_valid" "user" "bearer" "carol@example.org".

(** Wallet requests: for alice, and for an id the store does not know. *)
Definition charge_alice : doc := <["_id" := VStr "u1"]> (<["cost" := VNum 30]> ∅).
Definition charge_nobody : doc := <["_id" := VStr "u9"]> (<["cost" := VNum 30]> ∅).

End Demo.

(* ===================================================================== *)
(** ** More vocabulary, and more of the concrete world *)
(* ===================================================================== *)

(** A computation keeps a component [f] of the world (the collection, the
    cache, the clock) when it leaves it as it found it, however it settles. *)
Definition keeps {X A} (f : world → X) (c : M A) : Prop :=
  ∀ w, f (c w).2 = f w.

(** The time to live of a cached answer of [resolveToken], in
    milliseconds. *)
Definition resolveToken_ttl_ms : Z := 60 * 60 * 1000.

Module Signed.

(** The token [generateJWT] signs for alice at 1500 s, and what it
    decodes to. *)
Definition alice_token : string := "jwt(u1,5185500)".

(** The environment of [Demo], with a verification that knows the token
    signed for alice. *)
Definition env : Env := {|
  bcrypt_hashSync := @bcrypt_hashSync Demo.env;
  bcrypt_compare := @bcrypt_compare Demo.env;
  md5_hex := @md5_hex Demo.env;
  jwt_sign := @jwt_sign Demo.env;
  jwt_decode tok secret :=
    if String.eqb tok alice_token then Some (token_payload Demo.alice 1500000)
    else @jwt_decode Demo.env tok secret;
  is_email := @is_email Demo.env;
  is_email_empty := @is_email_empty Demo.env;
  User_cast := @User_cast Demo.env;
  new_id := @new_id Demo.env;
  github_user := @github_user Demo.env;
  env_JWT_SECRET := @env_JWT_SECRET Demo.env;
  date_toString := @date_toString Demo.env;
  ToNumber_str := @ToNumber_str Demo.env
|}.

End Signed.

Module Town.

(** A second account, and a world with both. *)
Definition bob : doc :=
  <["_id" := VStr "u2"]> (<["username" := VStr "bob"]>
  (<["git_id" := VStr "88"]> (<["email" := VStr "bob@example.org"]>
  (<["password" := VStr "$2a$10$hunter22"]> (<["wallet" := VNum 5]> ∅))))).

Definition w : world := World [Demo.alice; bob] None ∅ 1500000 [].

(** The caller as the gateway authenticated it: bob, alice, and an
    account that is gone. *)
Definition as_bob : meta := Meta VUndef (Some (<["_id" := VStr "u2"]> ∅)).
Definition as_alice : meta := Meta VUndef (Some (<["_id" := VStr "u1"]> ∅)).
Definition as_ghost : meta := Meta VUndef (Some (<["_id" := VStr "u9"]> ∅)).

(** Patches: bob takes the username of alice; bob changes his twitter
    handle and his password. *)
Definition take_alice_name : doc := <["username" := VStr "alice"]> ∅.
Definition new_handle : doc :=
  <["twitter" := VStr "@bob"]> (<["password" := VStr "letmein99"]> ∅).

(** A provider profile without a display name, and the sign-up that gets
    it; a sign-up with a token the provider refuses. *)
Definition nameless : doc :=
  <["id" := VNum 99]> (<["name" := VNull]>
  (<["avatar_url" := VStr "https://avatars.example/99"]> ∅)).
Definition refused : regtoken_params :=
  RegToken "hunter22" "gho_wrong" "user" "bearer" "dave@example.org".

(** Wallet requests for bob. *)
Definition charge_bob (c : Z) : doc :=
  <["_id" := VStr "u2"]> (<["cost" := VNum c]> ∅).

End Town.

(** A computation moves the collection along a relation [R] when the
    collection it leaves is related to the one it found. *)
Definition moves {A} (R : list doc → list doc → Prop) (c : M A) : Prop :=
  ∀ w, R (users w) (users (c w).2).

(** From [us] to [us'], every document whose [_id] is not [id] has stayed
    where it was and as it was, and no position was added or removed. *)
Definition others_stay (id : value) (us us' : list doc) : Prop :=
  length us' = length us ∧
  ∀ i d, us !! i = Some d → d !! "_id" ≠ Some id → us' !! i = Some d.

(** From [us] to [us'], documents were only added at the end or changed
    in place: every position of [us] is still there. *)
Definition none_removed (us us' : list doc) : Prop :=
  (length us ≤ length us')%nat.

(** The value the patch gives to the property [fld] is free for the
    caller whose id is [own]: the patch does not carry the property, or no
    account has the value, or the first account that has it is the
    caller's. *)
Definition clear_for (own fld : string) (patch : doc) (w : world) : Prop :=
  truthy (get fld patch) = false ∨
  find_by fld (get fld patch) (users w) = None ∨
  ∃ o, find_by fld (get fld patch) (users w) = Some o ∧ get "_id" o = VStr own.

Module Town2.



(** The environment of [Demo] with a provider that answers every request
    with the profile that has no display name. *)
Definition env_nameless : Env := {|
  bcrypt_hashSync := @bcrypt_hashSync Demo.env;
  bcrypt_compare := @bcrypt_compare Demo.env;
  md5_hex := @md5_hex Demo.env;
  jwt_sign := @jwt_sign Demo.env;
  jwt_decode := @jwt_decode Demo.env;
  is_email := @is_email Demo.env;
  is_email_empty := @is_email_empty Demo.env;
  User_cast := @User_cast Demo.env;
  new_id := @new_id Demo.env;
  github_user := λ _ _ _, Resolved Town.nameless;
  env_JWT_SECRET := @env_JWT_SECRET Demo.env;
  date_toString := @date_toString Demo.env;
  ToNumber_str := @ToNumber_str Demo.env
|}.

(** The world of [Town] after alice's token was resolved once, which put
    her account in the cache. *)
Definition cached_alice : world :=
  leaves (@resolveToken Demo.env "tok-alice") Town.w.

End Town2.

(* ===================================================================== *)
(** ** Running the monad *)
(* ===================================================================== *)

Example get_missing : get "password" (<["email" := VStr "a@b.c"]> ∅) = VUndef.
Proof. reflexivity. Qed.

Example get_present : get "email" (<["email" := VStr "a@b.c"]> ∅) = VStr "a@b.c".
Proof. vm_compute. reflexivity. Qed.

Section Running.
Context {A B : Type}.

Lemma bind_run (c : M A) (k : A → M B) (w : world) :
  (c ≫= k) w = match c w with
               | (Resolved a, w') => k a w'
               | (Rejected e, w') => (Rejected e, w')
               end.
Proof. reflexivity. Qed.

Lemma bind_Resolved (c : M A) (k : A → M B) w b w' :
  (c ≫= k) w = (Resolved b, w') →
  ∃ a w1, c w = (Resolved a, w1) ∧ k a w1 = (Resolved b, w').
Proof.
  rewrite bind_run. destruct (c w) as [[a|e] w1]; [eauto | discriminate].
Qed.

Lemma bind_Rejected (c : M A) (k : A → M B) w e w' :
  (c ≫= k) w = (Rejected e, w') →
  c w = (Rejected e, w') ∨
  ∃ a w1, c w = (Resolved a, w1) ∧ k a w1 = (Rejected e, w').
Proof.
  rewrite bind_run. destruct (c w) as [[a|e0] w1]; [eauto | intros [= -> ->]; eauto].
Qed.

End Running.

(** Break a run [(x ← c; k) w = (Resolved _, _)] into the runs of its parts. *)
Ltac unbind H :=
  let a := fresh "a" in
  let w1 := fresh "w" in
  let H1 := fresh H in
  apply bind_Resolved in H as (a & w1 & H1 & H).

(** Unfold the plumbing of the monad in a hypothesis, or in the goal. *)
Ltac plumb_in H :=
  cbv [mbind M_bind bind mret M_ret ret throw settled new_Date tell try_catch] in H.
Ltac plumb :=
  cbv [mbind M_bind bind mret M_ret ret throw settled new_Date tell try_catch].

(* ===================================================================== *)
(** ** The public view of a document *)
(* ===================================================================== *)

Section Properties.
Context `{Env}.

Lemma get_insert (k n : string) (v : value) (o : doc) :
  get k (<[n := v]> o) = if decide (k = n) then v else get k o.
Proof.
  unfold get. case_decide as E.
  - subst. by rewrite lookup_insert_eq.
  - by rewrite lookup_insert_ne.
Qed.

Lemma get_keep_field (d res : doc) (n k : string) :
  get k (keep_field d res n)
  = if decide (k = n)
    then match get k d with VUndef => get k res | v => v end
    else get k res.
Proof.
  unfold keep_field. case_decide as E.
  - subst. destruct (get n d) eqn:G; [done|..];
      rewrite get_insert; by rewrite decide_True.
  - destruct (get n d); [done|..]; rewrite get_insert; by rewrite decide_False.
Qed.

Lemma get_foldl_keep (d acc : doc) (names : list string) (k : string) :
  get k (foldl (keep_field d) acc names)
  = if decide (k ∈ names)
    then match get k d with VUndef => get k acc | v => v end
    else get k acc.
Proof.
  revert acc. induction names as [|n names IH]; intros acc; simpl; [done|].
  rewrite IH, get_keep_field.
  destruct (decide (k = n)) as [->|Hne].
  - rewrite (decide_True (P := n ∈ n :: names)) by (apply elem_of_cons; by left).
    case_decide; by destruct (get n d).
  - destruct (decide (k ∈ names)) as [Hin|Hnin].
    + by rewrite decide_True by (apply elem_of_cons; by right).
    + rewrite decide_False; [done|]. by intros [?|?]%elem_of_cons.
Qed.

(** The filter keeps the listed properties as the document has them and
    defines no other. *)
Lemma get_filterFields (d : doc) (names : list string) (k : string) :
  get k (filterFields d names) = if decide (k ∈ names) then get k d else VUndef.
Proof.
  unfold filterFields. rewrite get_foldl_keep.
  case_decide; [|done]. by destruct (get k d).
Qed.

Lemma lookup_foldl_keep (d acc : doc) (names : list string) k v :
  foldl (keep_field d) acc names !! k = Some v →
  k ∈ names ∨ acc !! k = Some v.
Proof.
  revert acc. induction names as [|n names IH]; intros acc; simpl; [by right|].
  intros [Hin|Hacc]%IH; [left; apply elem_of_cons; by right|].
  destruct (decide (k = n)) as [->|Hne]; [left; apply elem_of_cons; by left|].
  right. unfold keep_field in Hacc.
  destruct (get n d); try done; by rewrite lookup_insert_ne in Hacc.
Qed.

Lemma filterFields_lookup (d : doc) (names : list string) k v :
  filterFields d names !! k = Some v → k ∈ names.
Proof.
  intros [?|Hemp]%lookup_foldl_keep; [done|].
  by rewrite lookup_empty in Hemp.
Qed.

Lemma password_not_public : "password" ∉ fields.
Proof. unfold fields. intros Hin. repeat (apply elem_of_cons in Hin as [?|Hin]; [done|]). by apply elem_of_nil in Hin. Qed.

(** What [transformDocuments] answers never has a [password]. *)
Lemma transformDocuments_no_password (d : doc) :
  transformDocuments d !! "password" = None.
Proof.
  destruct (transformDocuments d !! "password") eqn:E; [|done].
  apply filterFields_lookup in E. by apply password_not_public in E.
Qed.

(* ===================================================================== *)
(** ** The adapter *)
(* ===================================================================== *)

Lemma adapter_call_up {A} ev (f : list doc → outcome A * list doc) w :
  store_down w = None →
  adapter_call ev f w = ((f (users w)).1, set_users (f (users w)).2 (emit ev w)).
Proof. unfold adapter_call. intros ->. by destruct (f (users w)). Qed.

Lemma adapter_call_down {A} ev (f : list doc → outcome A * list doc) w m :
  store_down w = Some m →
  adapter_call ev f w = (Rejected (StoreError m), emit ev w).
Proof. unfold adapter_call. by intros ->. Qed.

Lemma findOne_up fld v w :
  store_down w = None →
  adapter_findOne fld v w = (Resolved (find_by fld v (users w)), emit (FindOne fld v) w).
Proof. intros Hup. unfold adapter_findOne. by rewrite adapter_call_up. Qed.

Lemma findById_up id w :
  store_down w = None →
  adapter_findById id w = (Resolved (find_by "_id" id (users w)), emit (FindById id) w).
Proof. intros Hup. unfold adapter_findById. by rewrite adapter_call_up. Qed.

Lemma find_by_Some fld v us d :
  find_by fld v us = Some d → d ∈ us ∧ d !! fld = Some v.
Proof.
  unfold find_by. intros [Hin Hd]%List.find_some.
  split; [by apply list_elem_of_In|]. by apply bool_decide_eq_true in Hd.
Qed.

Lemma find_by_None fld v us :
  find_by fld v us = None → ∀ d, d ∈ us → d !! fld ≠ Some v.
Proof.
  unfold find_by. intros Hnone d Hin%list_elem_of_In.
  apply (List.find_none _ _ Hnone) in Hin. by apply bool_decide_eq_false in Hin.
Qed.

Lemma taken_find_by fld e w :
  taken fld e w ↔ is_Some (find_by fld (get fld e) (users w)).
Proof.
  split.
  - intros (acc & Hin & Hacc).
    destruct (find_by fld (get fld e) (users w)) eqn:E; [by eexists|].
    by destruct (find_by_None _ _ _ E acc Hin).
  - intros [d Hd]. apply find_by_Some in Hd as [??]. by exists d.
Qed.

(* ===================================================================== *)
(** ** Valid entities *)
(* ===================================================================== *)

Lemma valid_entity_rule e k r :
  valid_entity e = true → In (k, r) entityValidator →
  check_rule r (get k e) = true.
Proof.
  unfold valid_entity. intros Hall Hin.
  by apply (proj1 (List.forallb_forall _ _) Hall (k, r)).
Qed.

(** A valid entity carries a [username] and an [email] that are not empty,
    so [create] skips neither of its two checks. *)
Lemma valid_entity_username e :
  valid_entity e = true → truthy (get "username" e) = true.
Proof.
  intros Hv. pose proof (valid_entity_rule e "username" _ Hv (or_introl eq_refl)) as Hu.
  destruct (get "username" e) as [| | | | |s|]; simpl in Hu; try done.
  apply bool_decide_eq_true in Hu. destruct s; [simpl in Hu; lia | done].
Qed.

Lemma valid_entity_email e :
  valid_entity e = true → truthy (get "email" e) = true.
Proof.
  intros Hv.
  assert (In ("email", RuleEmail) entityValidator) as Hin by (simpl; tauto).
  pose proof (valid_entity_rule e "email" _ Hv Hin) as He.
  destruct (get "email" e) as [| | | | |s|]; simpl in He; try done.
  destruct s; [by rewrite is_email_empty in He | done].
Qed.

Lemma valid_entity_password e :
  valid_entity e = true → ∃ s, get "password" e = VStr s.
Proof.
  intros Hv.
  assert (In ("password", RuleString 6 false) entityValidator) as Hin by (simpl; tauto).
  pose proof (valid_entity_rule e "password" _ Hv Hin) as Hp.
  destruct (get "password" e) as [| | | | |s|]; simpl in Hp; try done. by exists s.
Qed.

(* ===================================================================== *)
(** ** [transformEntity] and [generateJWT] *)
(* ===================================================================== *)

Lemma generateJWT_run u w :
  generateJWT u w = (Resolved (jwt_sign (token_payload u (now w)) JWT_SECRET), w).
Proof. reflexivity. Qed.

(** The token that [transformEntity] attaches: the caller's when there is
    one, a new one for [u] otherwise. *)
Lemma transformEntity_Some u wt tok w j w' :
  transformEntity (Some u) wt tok w = (Resolved j, w') →
  w' = w ∧ ∃ av,
    let u1 := <["avatar" := av]> u in
    user j = Some
      (if wt
       then <["token" := if truthy tok then tok
                         else VStr (jwt_sign (token_payload u1 (now w)) JWT_SECRET)]> u1
       else u1).
Proof.
  unfold transformEntity. intros Hrun. unbind Hrun.
  assert (w0 = w) as ->.
  { destruct (truthy (get "avatar" u)); [by injection Hrun0|].
    unfold md5_of in Hrun0. plumb_in Hrun0.
    by destruct (get "email" u); simplify_eq. }
  unfold generateJWT in Hrun. plumb_in Hrun.
  destruct wt, (truthy tok); injection Hrun as <- <-; (split; [done | by exists a]).
Qed.

Lemma transformEntity_None wt tok w :
  transformEntity None wt tok w = (Resolved (Json None), w).
Proof. reflexivity. Qed.

(** [transformEntity] adds [avatar] and [token] and leaves every other
    property as it finds it. *)
Lemma transformEntity_keeps ou wt tok w j w' u' k :
  transformEntity ou wt tok w = (Resolved j, w') →
  user j = Some u' → k ≠ "avatar" → k ≠ "token" →
  ∃ u, ou = Some u ∧ u' !! k = u !! k.
Proof.
  destruct ou as [u|]; [|by intros [= <- <-]].
  intros (_ & av & Hj)%transformEntity_Some Hu' Hav Htok.
  exists u; split; [done|]. simpl in Hj. rewrite Hj in Hu'.
  destruct wt; injection Hu' as <-;
    by rewrite ?(lookup_insert_ne _ "token"), ?(lookup_insert_ne _ "avatar").
Qed.

(** A transformed public view has no [password]. *)
Lemma public_view_no_password d wt tok w j w' u' :
  transformEntity (Some (transformDocuments d)) wt tok w = (Resolved j, w') →
  user j = Some u' → u' !! "password" = None.
Proof.
  intros Hrun Hu'.
  destruct (transformEntity_keeps _ _ _ _ _ _ _ "password" Hrun Hu')
    as (u & [= <-] & ->); [done..|].
  apply transformDocuments_no_password.
Qed.

Lemma token_payload_ext u v t :
  get "_id" u = get "_id" v → get "username" u = get "username" v →
  token_payload u t = token_payload v t.
Proof. unfold token_payload. by intros -> ->. Qed.

(* ===================================================================== *)
(** ** [create] *)
(* ===================================================================== *)

Lemma validateEntity_run e w :
  validateEntity e w =
  if valid_entity e then (Resolved (), w)
  else (Rejected (ValidationError "Entity validation error!"), w).
Proof. unfold validateEntity. by destruct (valid_entity e). Qed.

(** A uniqueness check on a property the entity carries: one [findOne],
    and the conflict when it finds a document. *)
Lemma create_check_up fld msg e w :
  truthy (get fld e) = true → store_down w = None →
  create_check fld msg e w =
  match find_by fld (get fld e) (users w) with
  | Some _ => (Rejected (conflict msg fld), emit (FindOne fld (get fld e)) w)
  | None => (Resolved (), emit (FindOne fld (get fld e)) w)
  end.
Proof.
  intros Ht Hup. unfold create_check. rewrite Ht, bind_run, findOne_up by done.
  by destruct (find_by fld (get fld e) (users w)).
Qed.

(** A check that passes has changed nothing but the log. *)
Lemma create_check_Resolved fld msg e w a w' :
  create_check fld msg e w = (Resolved a, w') →
  users w' = users w ∧ store_down w' = store_down w ∧
  now w' = now w ∧ cache w' = cache w.
Proof.
  unfold create_check, adapter_findOne, adapter_call. plumb.
  destruct (truthy (get fld e)); [|by intros [= _ <-]].
  destruct (store_down w) eqn:Hup; [done|].
  destruct (find_by fld (get fld e) (users w)); simpl; [done|].
  intros [= _ <-]. simpl. by rewrite Hup.
Qed.

(** What a registration that succeeds has done: the entity was valid, the
    store has one more document, made from the entity with its hashed
    password and its [createdAt] and given its [_id] by the store, and the
    answer is the public view of that document with an avatar and a token. *)
Lemma create_Resolved m e w j w' :
  create m e w = (Resolved j, w') →
  ∃ hashed av,
    let d := <["_id" := VStr (new_id (users w))]>
               (User_cast (<["createdAt" := VDate (now w)]>
                             (<["password" := VStr hashed]> e))) in
    let u1 := <["avatar" := av]> (transformDocuments d) in
    valid_entity e = true ∧
    users w' = users w ++ [d] ∧
    user j = Some (<["token" := if truthy (token m) then token m
                                else VStr (jwt_sign (token_payload u1 (now w)) JWT_SECRET)]> u1).
Proof.
  unfold create. intros Hrun.
  unbind Hrun. rewrite validateEntity_run in Hrun0.
  destruct (valid_entity e) eqn:Hv; [|done]. injection Hrun0 as _ <-.
  unbind Hrun. apply create_check_Resolved in Hrun0 as (Hu1 & Hs1 & Hn1 & Hc1).
  unbind Hrun. apply create_check_Resolved in Hrun0 as (Hu2 & Hs2 & Hn2 & Hc2).
  unbind Hrun. unfold hashSync in Hrun0.
  destruct (get "password" e) as [| | | | |pw|]; try done. injection Hrun0 as <- <-.
  unbind Hrun. injection Hrun0 as <- <-.
  unbind Hrun. unfold adapter_insert, adapter_call in Hrun0.
  destruct (store_down w1) eqn:Hs3; [done|]. injection Hrun0 as <- <-.
  unbind Hrun. apply transformEntity_Some in Hrun0 as (-> & av & Hj).
  unbind Hrun. plumb_in Hrun. injection Hrun as <- <-.
  unfold entityChanged, cacher_clean in Hrun0. plumb_in Hrun0.
  injection Hrun0 as _ <-.
  exists (bcrypt_hashSync pw 10), av. simpl in *.
  rewrite Hu2, Hu1, Hn2, Hn1 in *. by split_and!.
Qed.

(** The profile [create] returns has no [password]. *)
Lemma create_no_password m e w j u :
  settles (create m e) w = Resolved j → user j = Some u → u !! "password" = None.
Proof.
  unfold settles. destruct (create m e w) as [o w'] eqn:Hrun. simpl. intros ->.
  apply create_Resolved in Hrun as (hashed & av & _ & _ & Hj). simpl in Hj.
  rewrite Hj. intros [= <-].
  rewrite !lookup_insert_ne by done. apply transformDocuments_no_password.
Qed.

(** The run of [create] on a valid entity whose username is taken. *)
Lemma create_username_taken m e w :
  valid_entity e = true → store_down w = None → taken "username" e w →
  create m e w = (Rejected (conflict "Username is exist!" "username"),
                  emit (FindOne "username" (get "username" e)) w).
Proof.
  intros Hv Hup [acc Hacc]%taken_find_by. unfold create.
  rewrite bind_run, validateEntity_run, Hv.
  rewrite bind_run, create_check_up by auto using valid_entity_username.
  by rewrite Hacc.
Qed.

(** The run of [create] on a valid entity whose username is free and whose
    e-mail is taken. *)
Lemma create_email_taken m e w :
  valid_entity e = true → store_down w = None →
  ¬ taken "username" e w → taken "email" e w →
  create m e w = (Rejected (conflict "Email is exist!" "email"),
                  emit (FindOne "email" (get "email" e))
                    (emit (FindOne "username" (get "username" e)) w)).
Proof.
  intros Hv Hup Hfree [acc Hacc]%taken_find_by. unfold create.
  rewrite bind_run, validateEntity_run, Hv.
  rewrite bind_run, create_check_up by auto using valid_entity_username.
  destruct (find_by "username" (get "username" e) (users w)) eqn:Hu.
  { destruct Hfree. apply taken_find_by. by rewrite Hu. }
  rewrite bind_run, create_check_up by auto using valid_entity_email.
  simpl. by rewrite Hacc.
Qed.

(** C4, as amended.  For every valid registration candidate, with the
    store in reach: when its username is the username of an existing
    account, [create] fails with the conflict error on the [username] field
    (message "Username is exist!", code 422) and the collection is left as
    it was; when its username is free and its e-mail is the e-mail of an
    existing account, [create] fails with the conflict error on the [email]
    field and the collection is left as it was. *)
Theorem create_conflict m e w :
  valid_entity e = true → store_down w = None →
  (taken "username" e w →
     settles (create m e) w = Rejected (conflict "Username is exist!" "username") ∧
     users (leaves (create m e) w) = users w) ∧
  (¬ taken "username" e w → taken "email" e w →
     settles (create m e) w = Rejected (conflict "Email is exist!" "email") ∧
     users (leaves (create m e) w) = users w).
Proof.
  intros Hv Hup. unfold settles, leaves. split.
  - intros Ht. by rewrite create_username_taken.
  - intros Hfree Ht. by rewrite create_email_taken.
Qed.

(** C8, as amended.  For every successful [create], the store holds one
    more account, the returned profile is the one of that account, and the
    token it carries is the session token of the caller when the request
    came with one, and otherwise the token [generateJWT] signs for the new
    account during the call. *)
Theorem create_token m e w j :
  settles (create m e) w = Resolved j →
  ∃ u acc,
    user j = Some u ∧
    users (leaves (create m e) w) = users w ++ [acc] ∧
    get "_id" acc = VStr (new_id (users w)) ∧
    get "_id" u = get "_id" acc ∧
    get "token" u =
      if truthy (token m) then token m
      else VStr (jwt_sign (token_payload acc (now w)) JWT_SECRET).
Proof.
  unfold settles, leaves. destruct (create m e w) as [o w'] eqn:Hrun. simpl.
  intros ->. apply create_Resolved in Hrun as (hashed & av & _ & Hus & Hj).
  simpl in Hus, Hj. eexists _, _. split; [exact Hj|]. split; [exact Hus|].
  assert (∀ k d, k ∈ fields → k ≠ "avatar" →
            get k (<["avatar" := av]> (transformDocuments d)) = get k d) as Hpub.
  { intros k d Hk Hne. unfold transformDocuments.
    rewrite get_insert, decide_False, get_filterFields, decide_True; done. }
  assert ("_id" ∈ fields) as Hid by (apply elem_of_cons; by left).
  assert ("username" ∈ fields) as Hun
    by (apply elem_of_cons; right; apply elem_of_cons; by left).
  split_and!.
  - by rewrite get_insert.
  - rewrite (get_insert "_id" "token"), decide_False by done. by apply Hpub.
  - rewrite get_insert, decide_True by done.
    destruct (truthy (token m)); [done|]. do 2 f_equal.
    apply token_payload_ext; by apply Hpub.
Qed.

(* ===================================================================== *)
(** ** [login] *)
(* ===================================================================== *)

(** No account has the e-mail: the first of the two errors. *)
Lemma login_unknown_email m email password w :
  store_down w = None → find_by "email" (VStr email) (users w) = None →
  settles (login m email password) w =
  Rejected (MoleculerClientError "Email or password is invalid!" 422
              (Some "") (Some [FieldDetail "email" "is not found"])).
Proof.
  intros Hup Hnone. unfold settles, login.
  by rewrite bind_run, findOne_up, Hnone.
Qed.

(** The account exists and the password does not match its hash: the
    second error, with another message. *)
Lemma login_wrong_password m email password w u hash :
  store_down w = None → find_by "email" (VStr email) (users w) = Some u →
  get "password" u = VStr hash → bcrypt_compare password hash = false →
  settles (login m email password) w =
  Rejected (MoleculerClientError "Wrong password!" 422
              (Some "") (Some [FieldDetail "email" "is not found"])).
Proof.
  intros Hup Hu Hpw Hcmp. unfold settles, login.
  rewrite bind_run, findOne_up, Hu by done.
  unfold compare. rewrite Hpw. plumb. by rewrite Hcmp.
Qed.

(** The profile [login] returns has no [password]. *)
Lemma login_no_password m email password w j u :
  settles (login m email password) w = Resolved j →
  user j = Some u → u !! "password" = None.
Proof.
  unfold settles. destruct (login m email password w) as [o w'] eqn:Hrun.
  simpl. intros ->. unfold login in Hrun. unbind Hrun.
  destruct a as [acc|]; [|done]. unbind Hrun.
  destruct (negb a); [done|]. eauto using public_view_no_password.
Qed.

(* ===================================================================== *)
(** ** The cache and [resolveToken] *)
(* ===================================================================== *)

Lemma after_get_frame tok w :
  users (after_get tok w) = users w ∧ store_down (after_get tok w) = store_down w ∧
  now (after_get tok w) = now w ∧ log (after_get tok w) = log w.
Proof.
  unfold after_get. destruct (cache w !! tok) as [[r t]|]; [|done].
  by destruct (t <? now w).
Qed.

(** A live entry with a document answers the call: the handler is not run
    and the world stays as it is. *)
Lemma cached_hit tok ttl handler w d :
  live_entry tok w = Some d → cached tok ttl handler w = (Resolved (RDoc d), w).
Proof.
  unfold live_entry, cached, cacher_get. plumb.
  destruct (cache w !! tok) as [[[| |d'] t]|]; try done.
  destruct (t <? now w); [done|]. by intros [= ->].
Qed.

(** Otherwise the handler runs, and what it resolves with is stored under
    the token for [ttl] seconds. *)
Lemma cached_miss tok ttl handler w :
  live_entry tok w = None →
  cached tok ttl handler w =
  match handler (after_get tok w) with
  | (Resolved r, w1) =>
      (Resolved r, set_cache (<[tok := (r, now w1 + ttl * 1000)]> (cache w1)) w1)
  | (Rejected e, w1) => (Rejected e, w1)
  end.
Proof.
  unfold live_entry, after_get, cached, cacher_get, cacher_set. plumb.
  destruct (cache w !! tok) as [[[| |d'] t]|]; try done;
    destruct (t <? now w); try done;
    match goal with |- context [handler ?x] => by destruct (handler x) as [[?|?] ?] end.
Qed.

(** The run of the handler of [resolveToken]. *)
Lemma resolveToken_handler_run tok w :
  resolveToken_handler tok w =
  match check_token tok JWT_SECRET (now w) with
  | Rejected e => (Rejected e, w)
  | Resolved decoded =>
      if truthy (get "id" decoded) then
        match getById (get "id" decoded) w with
        | (Resolved (Some d), w') => (Resolved (RDoc d), w')
        | (Resolved None, w') => (Resolved RNull, w')
        | (Rejected e, w') => (Rejected e, w')
        end
      else (Resolved RUndefined, w)
  end.
Proof.
  unfold resolveToken_handler, jwt_verify. plumb.
  destruct (check_token tok JWT_SECRET (now w)) as [decoded|e]; [|done].
  destruct (truthy (get "id" decoded)); [|done].
  by destruct (getById (get "id" decoded) w) as [[[d|]|e] w'].
Qed.

Lemma jwt_verify_run tok secret w :
  jwt_verify tok secret w = (check_token tok secret (now w), w).
Proof. reflexivity. Qed.

(** A token that passes the checks decodes to the payload they answer. *)
Lemma check_token_decode tok secret t payload :
  check_token tok secret t = Resolved payload →
  jwt_decode tok secret = Some payload.
Proof.
  unfold check_token. destruct (jwt_decode tok secret) as [p|]; [|done].
  destruct (get "exp" p) as [| | |exp| | |]; try done; try by intros [= ->].
  destruct (exp <=? t / 1000); [done|]. by intros [= ->].
Qed.

(** A token whose [exp] has passed fails the checks as expired. *)
Lemma check_token_expired tok secret t payload exp :
  jwt_decode tok secret = Some payload → get "exp" payload = VNum exp →
  exp ≤ t / 1000 →
  check_token tok secret t = Rejected (TokenExpiredError "jwt expired").
Proof.
  intros Hdec Hexp Hle. unfold check_token. rewrite Hdec, Hexp.
  by rewrite (proj2 (Z.leb_le _ _) Hle).
Qed.

(** C2, as amended.  For every token whose embedded expiry lies in the
    past: when the cache holds no live entry with a document for the token
    string, [resolveToken] fails with the expiry error of the verification;
    when it holds one, the cached document is the answer, and the token is
    not verified. *)
Theorem resolveToken_expired tok w payload exp :
  jwt_decode tok JWT_SECRET = Some payload → get "exp" payload = VNum exp →
  exp ≤ now w / 1000 →
  settles (resolveToken tok) w =
  match live_entry tok w with
  | Some d => Resolved (RDoc d)
  | None => Rejected (TokenExpiredError "jwt expired")
  end.
Proof.
  intros Hdec Hexp Hle. unfold settles, resolveToken.
  destruct (live_entry tok w) as [d|] eqn:Hlive.
  - by rewrite (cached_hit _ _ _ _ d).
  - rewrite cached_miss, resolveToken_handler_run by done.
    destruct (after_get_frame tok w) as (_ & _ & -> & _).
    by rewrite (check_token_expired _ _ _ payload exp).
Qed.

(** The answers of [resolveToken] when the cache does not have the token,
    the token passes the checks and carries a usable [id], and the store is
    in reach: the stored document with that [_id], as the store holds it,
    or [null] when there is none; the answer is put in the cache for an
    hour. *)
Lemma resolveToken_lookup tok w payload :
  store_down w = None → live_entry tok w = None →
  check_token tok JWT_SECRET (now w) = Resolved payload →
  truthy (get "id" payload) = true →
  let r := match find_by "_id" (get "id" payload) (users w) with
           | Some d => RDoc d
           | None => RNull
           end in
  settles (resolveToken tok) w = Resolved r ∧
  cache (leaves (resolveToken tok) w) !! tok = Some (r, now w + 3600 * 1000).
Proof.
  intros Hup Hlive Hchk Hid. unfold settles, leaves, resolveToken.
  rewrite cached_miss, resolveToken_handler_run by done.
  destruct (after_get_frame tok w) as (Hus & Hsd & Hnow & _).
  rewrite Hnow, Hchk, Hid. unfold getById.
  rewrite findById_up, Hus by congruence.
  destruct (find_by "_id" (get "id" payload) (users w)); simpl;
    by rewrite lookup_insert_eq, Hnow.
Qed.

(* ===================================================================== *)
(** ** [me], [updateMyself], [getbygitID] *)
(* ===================================================================== *)

Lemma me_no_password m w j u :
  settles (me m) w = Resolved j → user j = Some u → u !! "password" = None.
Proof.
  unfold settles. destruct (me m w) as [o w'] eqn:Hrun. simpl. intros ->.
  unfold me in Hrun. unbind Hrun. unbind Hrun.
  destruct a0 as [acc|]; [|done]. eauto using public_view_no_password.
Qed.

Lemma updateMyself_no_password m newData w j u :
  settles (updateMyself m newData) w = Resolved j →
  user j = Some u → u !! "password" = None.
Proof.
  unfold settles. destruct (updateMyself m newData w) as [o w'] eqn:Hrun.
  simpl. intros ->. unfold updateMyself in Hrun.
  do 6 unbind Hrun. plumb_in Hrun. injection Hrun as <- _.
  destruct a3 as [d|].
  - intros Hu. exact (public_view_no_password d _ _ _ _ _ _ Hrun5 Hu).
  - simpl in Hrun5. by injection Hrun5 as <- _.
Qed.

Lemma getbygitID_no_password id w d :
  settles (getbygitID id) w = Resolved d → d !! "password" = None.
Proof.
  unfold settles. destruct (getbygitID id w) as [o w'] eqn:Hrun. simpl. intros ->.
  unfold getbygitID in Hrun. unbind Hrun. destruct a as [acc|]; [|done].
  injection Hrun as <- _. apply transformDocuments_no_password.
Qed.

(* ===================================================================== *)
(** ** [deductWallet] *)
(* ===================================================================== *)

(** The handler settles as the promise of its one adapter call: nothing
    the call is rejected with passes through the [catch]. *)
Lemma deductWallet_run payload w :
  deductWallet payload w =
  adapter_updateById (get "_id" payload)
    (UInc "wallet" (js_neg ToNumber_str (get "cost" payload))) w.
Proof. unfold deductWallet. plumb. by destruct (adapter_updateById _ _ w) as [[?|?] ?]. Qed.

Lemma deductWallet_store_down payload w m :
  store_down w = Some m →
  settles (deductWallet payload) w = Rejected (StoreError m).
Proof.
  intros Hdown. unfold settles. rewrite deductWallet_run.
  unfold adapter_updateById. by rewrite (adapter_call_down _ _ _ m).
Qed.

Lemma update_first_miss id u us :
  find_by "_id" id us = None → update_first id u us = (Resolved None, us).
Proof.
  unfold find_by. induction us as [|d us IH]; simpl; [done|].
  destruct (bool_decide (d !! "_id" = Some id)); [done|].
  intros Hnone. by rewrite IH.
Qed.

Lemma deductWallet_unknown_id payload w :
  store_down w = None → find_by "_id" (get "_id" payload) (users w) = None →
  settles (deductWallet payload) w = Resolved None.
Proof.
  intros Hup Hnone. unfold settles. rewrite deductWallet_run.
  unfold adapter_updateById. rewrite adapter_call_up by done.
  by rewrite update_first_miss.
Qed.

(** Whatever the payload and the state of the store, the handler issues
    one call to the store, and it is the increment. *)
Lemma deductWallet_one_call payload w :
  log (leaves (deductWallet payload) w) =
  log w ++ [UpdateById (get "_id" payload)
              (UInc "wallet" (js_neg ToNumber_str (get "cost" payload)))].
Proof.
  unfold leaves. rewrite deductWallet_run. unfold adapter_updateById, adapter_call.
  destruct (store_down w); [done|]. by destruct (update_first _ _ (users w)).
Qed.

(** The update reaches the first document with the id, and only it. *)
Lemma update_first_hit id u us i acc acc' :
  us !! i = Some acc → acc !! "_id" = Some id →
  (∀ j d, (j < i)%nat → us !! j = Some d → d !! "_id" ≠ Some id) →
  apply_update u acc = Resolved acc' →
  update_first id u us = (Resolved (Some acc'), <[i := acc']> us).
Proof.
  revert i. induction us as [|d us IH]; intros i Hi Hid Hfirst Happ; [done|].
  destruct i as [|i]; simpl in *.
  - injection Hi as ->. by rewrite bool_decide_eq_true_2, Happ.
  - rewrite bool_decide_eq_false_2 by (apply (Hfirst 0%nat); [lia|done]).
    rewrite (IH i); [done..| |done].
    intros j d' Hj Hd'. apply (Hfirst (S j)); [lia|done].
Qed.

Lemma apply_inc_wallet acc balance n :
  wallet_of acc = Some balance →
  apply_update (UInc "wallet" (VNum n)) acc
  = Resolved (<["wallet" := VNum (balance + n)]> acc).
Proof.
  unfold wallet_of, apply_update.
  destruct (acc !! "wallet") as [[| | |x| | |]|]; try done; by intros [= <-].
Qed.

(** C7.  For every [deductWallet] call with a numeric [cost], on an
    account with a numeric balance and with the store in reach: the handler
    issues one call to the store, [updateById] with the increment of
    [wallet] by the signed amount [- cost]; the stored account afterwards is
    the account before with [wallet] set to the balance plus that amount,
    every other property as it was; every other document of the collection,
    and the cache, are as before; and the handler answers with the updated
    account. *)
Theorem deductWallet_increment payload w i acc c balance :
  store_down w = None →
  get "cost" payload = VNum c →
  users w !! i = Some acc → acc !! "_id" = Some (get "_id" payload) →
  (∀ j d, (j < i)%nat → users w !! j = Some d →
          d !! "_id" ≠ Some (get "_id" payload)) →
  wallet_of acc = Some balance →
  let delta := - c in
  let acc' := <["wallet" := VNum (balance + delta)]> acc in
  let w' := leaves (deductWallet payload) w in
  settles (deductWallet payload) w = Resolved (Some acc') ∧
  log w' = log w ++ [UpdateById (get "_id" payload) (UInc "wallet" (VNum delta))] ∧
  users w' = <[i := acc']> (users w) ∧
  (∀ k, k ≠ "wallet" → acc' !! k = acc !! k) ∧
  cache w' = cache w.
Proof.
  intros Hup Hcost Hi Hid Hfirst Hbal. simpl. unfold settles, leaves.
  rewrite deductWallet_run, Hcost. simpl.
  unfold adapter_updateById. rewrite adapter_call_up by done.
  rewrite (update_first_hit _ _ _ i acc (<["wallet" := VNum (balance + - c)]> acc))
    by auto using apply_inc_wallet.
  split_and!; try done. intros k Hk. by rewrite lookup_insert_ne.
Qed.

(* ===================================================================== *)
(** ** [registerwithtoken] *)
(* ===================================================================== *)

(** Whatever goes wrong inside [registerwithtoken], the caller sees the
    one error of its [catch]. *)
Lemma registerwithtoken_Rejected m p w e :
  settles (registerwithtoken m p) w = Rejected e →
  e = MoleculerClientError "bad details!" 422 None None.
Proof.
  unfold settles, registerwithtoken, try_catch.
  match goal with |- context [match ?c w with _ => _ end] => destruct (c w) as [[?|?] ?] end;
    simpl; [done|]. by intros [= <-].
Qed.

Lemma registerwithtoken_Resolved m p w j :
  settles (registerwithtoken m p) w = Resolved j →
  ∃ data w1, settles (create m (provider_user p data)) w1 = Resolved j.
Proof.
  unfold settles, registerwithtoken, try_catch.
  match goal with |- context [match ?c w with _ => _ end] => destruct (c w) as [[?|?] ?] eqn:Hrun end;
    simpl; [|done]. intros [= ->].
  unbind Hrun. unbind Hrun. plumb_in Hrun. injection Hrun as <- _.
  exists a, w1. by rewrite Hrun1.
Qed.

Lemma registerwithtoken_no_password m p w j u :
  settles (registerwithtoken m p) w = Resolved j →
  user j = Some u → u !! "password" = None.
Proof.
  intros (data & w1 & Hc)%registerwithtoken_Resolved. eauto using create_no_password.
Qed.

(** C5, as amended.  For every [registerwithtoken] call in which the
    provider answers and the delegated [create] then fails, with a
    uniqueness conflict or with anything else, the caller receives the error
    "bad details!" (code 422) of the handler's [catch]: the error of
    [create] is replaced, not passed on. *)
Theorem registerwithtoken_replaces m p w data e :
  github_user (rt_access_token p) (rt_token_type p) (rt_scope p) = Resolved data →
  settles (create m (provider_user p data)) (leaves (axios_get_user p) w) = Rejected e →
  settles (registerwithtoken m p) w =
  Rejected (MoleculerClientError "bad details!" 422 None None).
Proof.
  unfold settles, leaves, registerwithtoken, try_catch.
  intros Hfetch Hcreate.
  rewrite bind_run. unfold axios_get_user in *. plumb. plumb_in Hcreate.
  rewrite Hfetch in *. simpl in *.
  match type of Hcreate with (?c).1 = _ => destruct c as [[?|?] ?] end; done.
Qed.

(* ===================================================================== *)
(** ** The cache stays sound *)
(* ===================================================================== *)

Section Kept.
Context {A B : Type}.

Lemma cache_kept_ret (a : A) : cache_kept (mret a : M A).
Proof. intros w. by left. Qed.

Lemma cache_kept_throw e : cache_kept (throw e : M A).
Proof. intros w. by left. Qed.

Lemma cache_kept_settled (o : outcome A) : cache_kept (settled o).
Proof. intros w. by left. Qed.

Lemma cache_kept_bind (c : M A) (k : A → M B) :
  cache_kept c → (∀ a, cache_kept (k a)) → cache_kept (c ≫= k).
Proof.
  intros Hc Hk w. rewrite bind_run. specialize (Hc w).
  destruct (c w) as [[a|e] w1]; simpl in *; [|done].
  destruct (Hk a w1) as [->| ->]; auto.
Qed.

Lemma cache_kept_try_catch (c : M A) (h : error → M A) :
  cache_kept c → (∀ e, cache_kept (h e)) → cache_kept (try_catch c h).
Proof.
  intros Hc Hh w. unfold try_catch. specialize (Hc w).
  destruct (c w) as [[a|e] w1]; simpl in *; [done|].
  destruct (Hh e w1) as [->| ->]; auto.
Qed.

Lemma adapter_call_cache ev (f : list doc → outcome A * list doc) w :
  cache (adapter_call ev f w).2 = cache w.
Proof.
  unfold adapter_call. destruct (store_down w); [done|]. by destruct (f (users w)).
Qed.

Lemma cache_kept_adapter_call ev (f : list doc → outcome A * list doc) :
  cache_kept (adapter_call ev f).
Proof. intros w. left. apply adapter_call_cache. Qed.

End Kept.

Lemma cache_kept_new_Date : cache_kept new_Date.
Proof. intros w. by left. Qed.

Lemma cache_kept_tell ev : cache_kept (tell ev).
Proof. intros w. by left. Qed.

Lemma cache_kept_cacher_clean : cache_kept cacher_clean.
Proof. intros w. by right. Qed.

Create HintDb kept discriminated.

#[local] Hint Resolve cache_kept_ret cache_kept_throw cache_kept_settled
  cache_kept_adapter_call cache_kept_new_Date cache_kept_tell
  cache_kept_cacher_clean : kept.

(** Walk through a handler: every bind, branch and primitive keeps the
    cache. *)
Ltac kept :=
  repeat first
    [ progress auto with kept
    | apply cache_kept_bind; [|intros ?]
    | apply cache_kept_try_catch; [|intros ?]
    | match goal with
      | |- cache_kept (if ?b then _ else _) => destruct b
      | |- cache_kept (match ?x with _ => _ end) => destruct x
      end ].

Lemma cache_kept_transformEntity u wt tok : cache_kept (transformEntity u wt tok).
Proof. unfold transformEntity, md5_of, generateJWT. kept. Qed.

Lemma cache_kept_create m e : cache_kept (create m e).
Proof.
  pose proof cache_kept_transformEntity.
  unfold create, validateEntity, create_check, adapter_findOne, hashSync,
    adapter_insert, entityChanged. kept.
Qed.

Lemma cache_kept_login m email password : cache_kept (login m email password).
Proof.
  pose proof cache_kept_transformEntity.
  unfold login, adapter_findOne, compare. kept.
Qed.

Lemma cache_kept_me m : cache_kept (me m).
Proof.
  pose proof cache_kept_transformEntity.
  unfold me, meta_user1_id, getById, adapter_findById. kept.
Qed.

Lemma cache_kept_updateMyself m newData : cache_kept (updateMyself m newData).
Proof.
  pose proof cache_kept_transformEntity.
  unfold updateMyself, update_check, adapter_findOne, toString, meta_user1_id,
    adapter_updateById, entityChanged. kept.
Qed.

Lemma cache_kept_deductWallet payload : cache_kept (deductWallet payload).
Proof.
  intros w. rewrite deductWallet_run. apply cache_kept_adapter_call.
Qed.

Lemma cache_kept_getbygitID id : cache_kept (getbygitID id).
Proof. unfold getbygitID, adapter_findOne. kept. Qed.

Lemma cache_kept_registerwithtoken m p : cache_kept (registerwithtoken m p).
Proof.
  pose proof cache_kept_create.
  unfold registerwithtoken, axios_get_user. kept.
Qed.

Lemma cache_sound_empty w : cache w = ∅ → cache_sound w.
Proof. intros Hc tok d t. by rewrite Hc, lookup_empty. Qed.

Lemma cache_sound_kept {A} (c : M A) w :
  cache_kept c → cache_sound w → cache_sound (leaves c w).
Proof.
  intros Hk Hs. unfold leaves. destruct (Hk w) as [Hc|Hc].
  - intros tok d t. rewrite Hc. apply Hs.
  - by apply cache_sound_empty.
Qed.

(** [resolveToken] puts a document in the cache only under a token that
    passed the checks with a usable [id]. *)
Lemma cache_sound_resolveToken tok w :
  cache_sound w → cache_sound (leaves (resolveToken tok) w).
Proof.
  intros Hs. unfold leaves, resolveToken.
  destruct (live_entry tok w) as [d|] eqn:Hlive.
  { by rewrite (cached_hit _ _ _ _ d). }
  rewrite cached_miss, resolveToken_handler_run by done.
  assert (cache_sound (after_get tok w)) as Hs'.
  { intros tok' d t. unfold after_get.
    destruct (cache w !! tok) as [[r t0]|]; [|apply Hs].
    destruct (t0 <? now w); [|apply Hs]. simpl.
    intros Hc. apply (Hs tok' d t).
    destruct (decide (tok = tok')) as [->|Hne];
      [by rewrite lookup_delete_eq in Hc | by rewrite lookup_delete_ne in Hc]. }
  assert (∀ r w1, cache w1 = cache (after_get tok w) →
            (∀ d, r = RDoc d → ∃ payload, jwt_decode tok JWT_SECRET = Some payload ∧
                                          truthy (get "id" payload) = true) →
            cache_sound (set_cache (<[tok := (r, now w1 + 60 * 60 * 1000)]> (cache w1)) w1))
    as Hput.
  { intros r w1 Hc Hr tok' d t. simpl. rewrite Hc.
    destruct (decide (tok = tok')) as [<-|Hne].
    - rewrite lookup_insert_eq. intros [= -> _]. by eapply Hr.
    - rewrite lookup_insert_ne by done. apply Hs'. }
  destruct (check_token tok JWT_SECRET (now (after_get tok w))) as [decoded|e] eqn:Hchk;
    [|done].
  apply check_token_decode in Hchk.
  destruct (truthy (get "id" decoded)) eqn:Hid; [|by apply Hput].
  unfold getById, adapter_findById.
  pose proof (adapter_call_cache (FindById (get "id" decoded))
    (λ us, (Resolved (find_by "_id" (get "id" decoded) us), us))
    (after_get tok w)) as Hk.
  destruct (adapter_call _ _ (after_get tok w)) as [[[d|]|e] w1]; simpl in Hk.
  - apply Hput; [done|]. eauto.
  - by apply Hput.
  - intros tok' d t. simpl. rewrite Hk. apply Hs'.
Qed.

(** Every world the service can be in has a sound cache. *)
Lemma reachable_cache_sound w : reachable w → cache_sound w.
Proof.
  induction 1 as [us down t|w w' _ IH Hstep]; [by apply cache_sound_empty|].
  destruct Hstep as [c w|t w|us down w|c w Hsub]; try exact IH.
  - destruct c; simpl;
      first [ by apply cache_sound_resolveToken
            | apply cache_sound_kept;
              auto using cache_kept_create, cache_kept_login, cache_kept_me,
                cache_kept_updateMyself, cache_kept_deductWallet,
                cache_kept_getbygitID, cache_kept_registerwithtoken ].
  - intros tok d t Hc. simpl in Hc. eapply IH, lookup_weaken; done.
Qed.

(** C10.  In every world the service can be in, for every token that
    passes the verification and whose payload has no [id] field,
    [resolveToken] answers [undefined], neither a document nor an error, and
    issues no call to the store: the collection and the log are as before. *)
Theorem resolveToken_no_id tok w payload :
  reachable w →
  settles (jwt_verify tok JWT_SECRET) w = Resolved payload →
  payload !! "id" = None →
  settles (resolveToken tok) w = Resolved RUndefined ∧
  users (leaves (resolveToken tok) w) = users w ∧
  log (leaves (resolveToken tok) w) = log w.
Proof.
  intros Hsound%reachable_cache_sound Hver Hnoid.
  unfold settles in Hver. rewrite jwt_verify_run in Hver.
  simpl in Hver.
  assert (get "id" payload = VUndef) as Hid by (unfold get; by rewrite Hnoid).
  assert (live_entry tok w = None) as Hlive.
  { unfold live_entry. destruct (cache w !! tok) as [[[| |d] t]|] eqn:Hc; try done.
    destruct (Hsound _ _ _ Hc) as (p & Hp & Htruthy).
    apply check_token_decode in Hver. rewrite Hver in Hp. injection Hp as <-.
    by rewrite Hid in Htruthy. }
  unfold settles, leaves, resolveToken.
  rewrite cached_miss, resolveToken_handler_run by done.
  destruct (after_get_frame tok w) as (Hus & _ & Hnow & Hlog).
  by rewrite Hnow, Hver, Hid.
Qed.

End Properties.

(* ===================================================================== *)
(** ** Runs on the concrete world *)
(* ===================================================================== *)

Section Runs.
#[local] Existing Instance Demo.env.

Example demo_register :
  settles (create Demo.anonymous Demo.bob) Demo.w0
  = Resolved (Json (Some (Demo.bob_profile "jwt(u2,5185500)"))).
Proof. vm_compute. reflexivity. Qed.

Example demo_login :
  ∃ u, settles (login Demo.anonymous "alice@example.org" "s3cret!") Demo.w0
       = Resolved (Json (Some u)) ∧
       get "token" u = VStr "jwt(u1,5185500)" ∧ u !! "password" = None.
Proof. eexists. split; [vm_compute; reflexivity|]. split; vm_compute; reflexivity. Qed.

(** C1.  [resolveToken], on a token of alice that passes the verification,
    answers with the stored document of alice as the store holds it, and
    that document has the [password] field with the hash. *)
Theorem resolveToken_returns_password :
  settles (resolveToken "tok-alice") Demo.w0 = Resolved (RDoc Demo.alice) ∧
  Demo.alice !! "password" = Some (VStr "$2a$10$s3cret!").
Proof. split; vm_compute; reflexivity. Qed.

(** C2, witness: an expired token and an empty cache. *)
Lemma resolveToken_expired_witness :
  settles (resolveToken "tok-alice-old") Demo.w0
  = Rejected (TokenExpiredError "jwt expired").
Proof.
  apply (resolveToken_expired "tok-alice-old" Demo.w0 (Demo.alice_payload 1000) 1000).
  - reflexivity.
  - vm_compute. reflexivity.
  - vm_compute. discriminate.
Defined.

(** C2, counterexample.  The token expires at 1600 s.  It is resolved at
    1500 s, which puts alice in the cache for an hour; at 1700 s the token has
    expired, and [resolveToken] still answers with alice. *)
Lemma stale_entry_outlives_token :
  let w1 := leaves (resolveToken "tok-alice-short") Demo.w0 in
  let w2 := set_now 1700000 w1 in
  jwt_decode "tok-alice-short" JWT_SECRET = Some (Demo.alice_payload 1600) ∧
  get "exp" (Demo.alice_payload 1600) = VNum 1600 ∧
  1600 ≤ now w2 / 1000 ∧
  settles (resolveToken "tok-alice-short") w2 = Resolved (RDoc Demo.alice).
Proof.
  split_and!.
  - reflexivity.
  - vm_compute. reflexivity.
  - vm_compute. discriminate.
  - vm_compute. reflexivity.
Qed.

(** C3.  The token passes the verification, no account has the embedded
    id, and [resolveToken] resolves with [null]: no error is signalled. *)
Theorem resolveToken_unknown_account :
  settles (jwt_verify "tok-ghost" JWT_SECRET) Demo.w0 = Resolved Demo.ghost_payload ∧
  find_by "_id" (get "id" Demo.ghost_payload) (users Demo.w0) = None ∧
  settles (resolveToken "tok-ghost") Demo.w0 = Resolved RNull.
Proof. split_and!; vm_compute; reflexivity. Qed.

(** C4, witness: a candidate with alice's username, and one with a free
    username and alice's e-mail. *)
Lemma create_conflict_witness :
  (settles (create Demo.anonymous Demo.bob_as_alice) Demo.w0
     = Rejected (conflict "Username is exist!" "username") ∧
   users (leaves (create Demo.anonymous Demo.bob_as_alice) Demo.w0) = [Demo.alice]) ∧
  (settles (create Demo.anonymous Demo.bob_with_alice_email) Demo.w0
     = Rejected (conflict "Email is exist!" "email") ∧
   users (leaves (create Demo.anonymous Demo.bob_with_alice_email) Demo.w0) = [Demo.alice]).
Proof.
  split.
  - apply (create_conflict Demo.anonymous Demo.bob_as_alice Demo.w0);
      [vm_compute; reflexivity | reflexivity |].
    exists Demo.alice. split; [apply elem_of_cons; by left | vm_compute; reflexivity].
  - apply (create_conflict Demo.anonymous Demo.bob_with_alice_email Demo.w0);
      [vm_compute; reflexivity | reflexivity | |].
    + intros (acc & Hin & Hacc). apply list_elem_of_singleton in Hin as ->.
      vm_compute in Hacc. discriminate.
    + exists Demo.alice. split; [apply elem_of_cons; by left | vm_compute; reflexivity].
Defined.

(** C4, counterexample.  The candidate is valid and its e-mail is the one
    of alice, as is its username: the error [create] fails with details the
    [username] field, not the [email] field. *)
Lemma create_double_conflict :
  valid_entity Demo.alice_again = true ∧
  taken "email" Demo.alice_again Demo.w0 ∧
  settles (create Demo.anonymous Demo.alice_again) Demo.w0
  = Rejected (MoleculerClientError "Username is exist!" 422 (Some "")
                (Some [FieldDetail "username" "is exist"])).
Proof.
  split_and!; [vm_compute; reflexivity | | vm_compute; reflexivity].
  exists Demo.alice. split; [apply elem_of_cons; by left | vm_compute; reflexivity].
Qed.

(** C5, witness: the provider answers with a profile named alice, and the
    delegated [create] fails on the username. *)
Lemma registerwithtoken_replaces_witness :
  settles (registerwithtoken Demo.anonymous Demo.carol) Demo.w0
  = Rejected (MoleculerClientError "bad details!" 422 None None).
Proof.
  apply (registerwithtoken_replaces Demo.anonymous Demo.carol Demo.w0 Demo.octocat
           (conflict "Username is exist!" "username")).
  - reflexivity.
  - vm_compute. reflexivity.
Defined.

(** C5, counterexample.  The provider answers, the delegated [create]
    fails with the conflict on the username, and the caller of
    [registerwithtoken] receives "bad details!" in its place. *)
Lemma registerwithtoken_hides_conflict :
  github_user "gho_valid" "bearer" "user" = Resolved Demo.octocat ∧
  settles (create Demo.anonymous (provider_user Demo.carol Demo.octocat))
          (leaves (axios_get_user Demo.carol) Demo.w0)
  = Rejected (MoleculerClientError "Username is exist!" 422 (Some "")
                (Some [FieldDetail "username" "is exist"])) ∧
  settles (registerwithtoken Demo.anonymous Demo.carol) Demo.w0
  = Rejected (MoleculerClientError "bad details!" 422 None None).
Proof. split_and!; vm_compute; reflexivity. Qed.

(** C6.  With the store out of reach, [deductWallet] is rejected with the
    error of the store itself, not with "Internal Error!"; and for an id the
    store does not know it is not rejected at all, it resolves with [null]. *)
Theorem deductWallet_store_failure :
  settles (deductWallet Demo.charge_alice) Demo.w_down
  = Rejected (StoreError "ECONNREFUSED") ∧
  settles (deductWallet Demo.charge_nobody) Demo.w0 = Resolved None.
Proof. split; vm_compute; reflexivity. Qed.

(** C7, witness: thirty units off the hundred of alice. *)
Lemma deductWallet_increment_witness :
  settles (deductWallet Demo.charge_alice) Demo.w0
  = Resolved (Some (<["wallet" := VNum 70]> Demo.alice)) ∧
  log (leaves (deductWallet Demo.charge_alice) Demo.w0)
  = [UpdateById (VStr "u1") (UInc "wallet" (VNum (-30)))] ∧
  users (leaves (deductWallet Demo.charge_alice) Demo.w0)
  = [<["wallet" := VNum 70]> Demo.alice].
Proof.
  destruct (deductWallet_increment Demo.charge_alice Demo.w0 0 Demo.alice 30 100)
    as (Hres & Hlog & Hus & _).
  - reflexivity.
  - vm_compute. reflexivity.
  - reflexivity.
  - vm_compute. reflexivity.
  - intros j d Hj. lia.
  - vm_compute. reflexivity.
  - split_and!; [exact Hres | exact Hlog | exact Hus].
Defined.

(** C8, witness: a registration without a session token. *)
Lemma create_token_witness :
  ∃ u acc,
    user (Json (Some (Demo.bob_profile "jwt(u2,5185500)"))) = Some u ∧
    users (leaves (create Demo.anonymous Demo.bob) Demo.w0) = users Demo.w0 ++ [acc] ∧
    get "_id" acc = VStr (new_id (users Demo.w0)) ∧
    get "_id" u = get "_id" acc ∧
    get "token" u =
      if truthy (token Demo.anonymous) then token Demo.anonymous
      else VStr (jwt_sign (token_payload acc (now Demo.w0)) JWT_SECRET).
Proof.
  apply (create_token Demo.anonymous Demo.bob Demo.w0
           (Json (Some (Demo.bob_profile "jwt(u2,5185500)")))).
  vm_compute. reflexivity.
Defined.

(** C8, counterexample.  The request brings a session token: the
    registration succeeds, bob is stored, and the profile carries the token
    of the caller, which is not the token [generateJWT] makes for bob. *)
Lemma create_reuses_session_token :
  settles (create Demo.with_session Demo.bob) Demo.w0
  = Resolved (Json (Some (Demo.bob_profile "caller-session"))) ∧
  users (leaves (create Demo.with_session Demo.bob) Demo.w0)
  = [Demo.alice; Demo.bob_stored] ∧
  settles (generateJWT Demo.bob_stored) Demo.w0 = Resolved "jwt(u2,5185500)" ∧
  get "token" (Demo.bob_profile "caller-session") = VStr "caller-session".
Proof. split_and!; vm_compute; reflexivity. Qed.

(** C9.  A login with an e-mail that no account has, and a login with the
    e-mail of alice and a wrong password: both are rejected with code 422 and
    the same [data], and the messages differ, "Email or password is invalid!"
    for the first and "Wrong password!" for the second. *)
Theorem login_messages_differ :
  settles (login Demo.anonymous "nobody@example.org" "s3cret!") Demo.w0
  = Rejected (MoleculerClientError "Email or password is invalid!" 422 (Some "")
                (Some [FieldDetail "email" "is not found"])) ∧
  settles (login Demo.anonymous "alice@example.org" "wrong") Demo.w0
  = Rejected (MoleculerClientError "Wrong password!" 422 (Some "")
                (Some [FieldDetail "email" "is not found"])).
Proof. split; vm_compute; reflexivity. Qed.

(** C10, witness: a token whose payload has no [id], and an empty cache. *)
Lemma resolveToken_no_id_witness :
  settles (resolveToken "tok-anon") Demo.w0 = Resolved RUndefined ∧
  users (leaves (resolveToken "tok-anon") Demo.w0) = [Demo.alice] ∧
  log (leaves (resolveToken "tok-anon") Demo.w0) = [].
Proof.
  apply (resolveToken_no_id "tok-anon" Demo.w0 Demo.anon_payload).
  - apply reachable_start.
  - vm_compute. reflexivity.
  - vm_compute. reflexivity.
Defined.

End Runs.

(* ===================================================================== *)
(** ** Frames: what a handler leaves alone *)
(* ===================================================================== *)

Section Frames.
Context {X : Type} (f : world → X).
Context {A B : Type}.

Lemma keeps_ret (a : A) : keeps f (mret a : M A).
Proof. by intros w. Qed.

Lemma keeps_throw e : keeps f (throw e : M A).
Proof. by intros w. Qed.

Lemma keeps_settled (o : outcome A) : keeps f (settled o).
Proof. by intros w. Qed.

Lemma keeps_bind (c : M A) (k : A → M B) :
  keeps f c → (∀ a, keeps f (k a)) → keeps f (c ≫= k).
Proof.
  intros Hc Hk w. rewrite bind_run. specialize (Hc w).
  destruct (c w) as [[a|e] w1]; simpl in *; [|done].
  by rewrite Hk.
Qed.

Lemma keeps_try_catch (c : M A) (h : error → M A) :
  keeps f c → (∀ e, keeps f (h e)) → keeps f (try_catch c h).
Proof.
  intros Hc Hh w. unfold try_catch. specialize (Hc w).
  destruct (c w) as [[a|e] w1]; simpl in *; [done|].
  by rewrite Hh.
Qed.

End Frames.

Lemma keeps_new_Date {X} (f : world → X) : keeps f new_Date.
Proof. by intros w. Qed.

(** Walk through a handler whose primitives are known to keep [f]. *)
Ltac frames :=
  repeat first
    [ solve [auto]
    | apply keeps_ret | apply keeps_throw | apply keeps_settled
    | apply keeps_new_Date
    | apply keeps_bind; [|intros ?]
    | apply keeps_try_catch; [|intros ?]
    | match goal with
      | |- keeps _ (if ?b then _ else _) => destruct b
      | |- keeps _ (match ?x with _ => _ end) => destruct x
      end ].

(* ===================================================================== *)
(** ** More of the service *)
(* ===================================================================== *)

Section More.
Context `{Env}.

(** Reading never writes: the adapter's lookups keep the collection, and
    no adapter call touches the cache. *)
Lemma keeps_users_findOne fld v : keeps users (adapter_findOne fld v).
Proof.
  intros w. unfold adapter_findOne, adapter_call. by destruct (store_down w).
Qed.

Lemma keeps_users_findById id : keeps users (adapter_findById id).
Proof.
  intros w. unfold adapter_findById, adapter_call. by destruct (store_down w).
Qed.

Lemma keeps_cache_adapter_call {A} ev (f : list doc → outcome A * list doc) :
  keeps cache (adapter_call ev f).
Proof. intros w. apply adapter_call_cache. Qed.

(** [transformEntity] leaves the whole world as it is. *)
Lemma keeps_world_transformEntity u wt tok :
  keeps (λ w, w) (transformEntity u wt tok).
Proof. unfold transformEntity, md5_of, generateJWT. frames. Qed.

Lemma keeps_transformEntity {X} (f : world → X) u wt tok :
  keeps f (transformEntity u wt tok).
Proof. intros w. by rewrite (keeps_world_transformEntity u wt tok w). Qed.

Lemma lookup_keep_field (d res : doc) (n k : string) :
  keep_field d res n !! k
  = if decide (k = n)
    then match get k d with VUndef => res !! k | v => Some v end
    else res !! k.
Proof.
  unfold keep_field. case_decide as E.
  - subst. destruct (get n d) eqn:G; [done|..]; by rewrite lookup_insert_eq.
  - destruct (get n d); [done|..]; by rewrite lookup_insert_ne.
Qed.

Lemma lookup_foldl_keep_field (d acc : doc) (names : list string) (k : string) :
  foldl (keep_field d) acc names !! k
  = if decide (k ∈ names)
    then match get k d with VUndef => acc !! k | v => Some v end
    else acc !! k.
Proof.
  revert acc. induction names as [|n names IH]; intros acc; simpl; [done|].
  rewrite IH, lookup_keep_field.
  destruct (decide (k = n)) as [->|Hne].
  - rewrite (decide_True (P := n ∈ n :: names)) by (apply elem_of_cons; by left).
    case_decide; by destruct (get n d).
  - destruct (decide (k ∈ names)) as [Hin|Hnin].
    + by rewrite decide_True by (apply elem_of_cons; by right).
    + rewrite decide_False; [done|]. by intros [?|?]%elem_of_cons.
Qed.

(** X1.  The public view of a document is its restriction to the public
    fields: it defines a property exactly when the property is one of
    [_id], [username], [git_id], [email], [twitter], [avatar] and the
    document defines it, and then with the same value. *)
Theorem transformDocuments_lookup (d : doc) (k : string) (v : value) :
  transformDocuments d !! k = Some v ↔
  k ∈ fields ∧ d !! k = Some v ∧ v ≠ VUndef.
Proof.
  unfold transformDocuments, filterFields.
  rewrite lookup_foldl_keep_field, lookup_empty. unfold get.
  case_decide as Hin.
  - destruct (d !! k) as [x|] eqn:Hk; simpl.
    + destruct x; split; try (intros [= <-]; by split_and!);
        try (by intros (_ & [= <-] & _)); try done.
      by intros (_ & [= <-] & ?).
    + split; [done|]. by intros (_ & ? & _).
  - split; [done|]. by intros (? & _).
Qed.

(** X2.  The avatar of a transformed entity: an avatar the entity has is
    kept; an entity without one gets the gravatar address of the md5 of its
    e-mail; and an entity with neither an avatar nor an e-mail string makes
    [transformEntity] fail with a type error. *)
Theorem transformEntity_avatar (u : doc) (wt : bool) (tok : value) (w : world) :
  if truthy (get "avatar" u) then
    ∃ p, settles (transformEntity (Some u) wt tok) w = Resolved (Json (Some p)) ∧
         get "avatar" p = get "avatar" u
  else
    match get "email" u with
    | VStr s =>
        ∃ p, settles (transformEntity (Some u) wt tok) w = Resolved (Json (Some p)) ∧
             get "avatar" p =
               VStr ("https://www.gravatar.com/avatar/" +:+ md5_hex s +:+ "?d=robohash")
    | _ => settles (transformEntity (Some u) wt tok) w
           = Rejected (TypeError "The data argument must be of type string")
    end.
Proof.
  unfold settles, transformEntity, md5_of, generateJWT. plumb.
  destruct (truthy (get "avatar" u)) eqn:Hav.
  - destruct wt; [destruct (truthy tok)|]; eexists; (split; [reflexivity|]);
      rewrite ?(get_insert "avatar" "token"), ?get_insert; by repeat case_decide.
  - destruct (get "email" u); try done.
    destruct wt; [destruct (truthy tok)|]; eexists; (split; [reflexivity|]);
      rewrite ?(get_insert "avatar" "token"), ?get_insert; by repeat case_decide.
Qed.


(* --------------------------------------------------------------------- *)
(** *** Handlers that only read *)
(* --------------------------------------------------------------------- *)

Lemma keeps_users_login m email password : keeps users (login m email password).
Proof.
  pose proof (keeps_transformEntity users). pose proof keeps_users_findOne.
  unfold login, compare. frames.
Qed.

Lemma keeps_cache_login m email password : keeps cache (login m email password).
Proof.
  pose proof (keeps_transformEntity cache).
  pose proof (@keeps_cache_adapter_call (option doc)).
  unfold login, compare, adapter_findOne. frames.
Qed.

Lemma keeps_users_me m : keeps users (me m).
Proof.
  pose proof (keeps_transformEntity users). pose proof keeps_users_findById.
  unfold me, meta_user1_id, getById. frames.
Qed.

Lemma keeps_cache_me m : keeps cache (me m).
Proof.
  pose proof (keeps_transformEntity cache).
  pose proof (@keeps_cache_adapter_call (option doc)).
  unfold me, meta_user1_id, getById, adapter_findById. frames.
Qed.

Lemma keeps_users_getbygitID id : keeps users (getbygitID id).
Proof. pose proof keeps_users_findOne. unfold getbygitID. frames. Qed.

Lemma keeps_cache_getbygitID id : keeps cache (getbygitID id).
Proof.
  pose proof (@keeps_cache_adapter_call (option doc)).
  unfold getbygitID, adapter_findOne. frames.
Qed.

Lemma keeps_users_resolveToken tok : keeps users (resolveToken tok).
Proof.
  assert (keeps users (cacher_get tok)) as Hget.
  { intros w. unfold cacher_get. destruct (cache w !! tok) as [[r t]|]; [|done].
    by destruct (t <? now w). }
  assert (∀ r ttl, keeps users (cacher_set tok r ttl)) as Hset by done.
  pose proof keeps_users_findById.
  unfold resolveToken, cached, resolveToken_handler, jwt_verify, getById. frames.
Qed.

(** X3.  The handlers that look accounts up write nothing: [login], [me]
    and [getbygitID] leave the collection and the cache as they found them,
    and [resolveToken] leaves the collection as it found it, whatever the
    arguments, the state of the store and the way the call settles. *)
Theorem lookups_write_nothing m email password id tok w :
  (users (leaves (login m email password) w) = users w ∧
   cache (leaves (login m email password) w) = cache w) ∧
  (users (leaves (me m) w) = users w ∧ cache (leaves (me m) w) = cache w) ∧
  (users (leaves (getbygitID id) w) = users w ∧
   cache (leaves (getbygitID id) w) = cache w) ∧
  users (leaves (resolveToken tok) w) = users w.
Proof.
  unfold leaves. split_and!.
  - apply keeps_users_login.
  - apply keeps_cache_login.
  - apply keeps_users_me.
  - apply keeps_cache_me.
  - apply keeps_users_getbygitID.
  - apply keeps_cache_getbygitID.
  - apply keeps_users_resolveToken.
Qed.


(* --------------------------------------------------------------------- *)
(** *** [login], and the token it hands out *)
(* --------------------------------------------------------------------- *)

Lemma get_public_view av d k :
  k ∈ fields → k ≠ "avatar" →
  get k (<["avatar" := av]> (transformDocuments d)) = get k d.
Proof.
  intros Hk Hne. unfold transformDocuments.
  rewrite get_insert, decide_False, get_filterFields, decide_True; done.
Qed.

Lemma public_id : "_id" ∈ fields.
Proof. apply elem_of_cons. by left. Qed.

Lemma public_username : "username" ∈ fields.
Proof. apply elem_of_cons; right. apply elem_of_cons. by left. Qed.

Lemma public_email : "email" ∈ fields.
Proof. do 3 (apply elem_of_cons; right). apply elem_of_cons. by left. Qed.

(** The run of [transformEntity] on a public view whose e-mail is a
    string: it resolves, with the avatar and the token set. *)
Lemma transformEntity_public d tok w s :
  get "email" d = VStr s →
  ∃ av, transformEntity (Some (transformDocuments d)) true tok w
        = (Resolved (Json (Some
             (<["token" := if truthy tok then tok
                           else VStr (jwt_sign (token_payload d (now w)) JWT_SECRET)]>
                (<["avatar" := av]> (transformDocuments d))))), w).
Proof.
  intros Hemail.
  assert (get "email" (transformDocuments d) = VStr s) as Hemail'.
  { unfold transformDocuments. rewrite get_filterFields, decide_True; [done|].
    apply public_email. }
  assert (∀ av, token_payload (<["avatar" := av]> (transformDocuments d)) (now w)
                = token_payload d (now w)) as Hpay.
  { intros av. apply token_payload_ext; apply get_public_view;
      auto using public_id, public_username. }
  unfold transformEntity, md5_of, generateJWT. plumb. rewrite Hemail'.
  destruct (truthy (get "avatar" (transformDocuments d)));
    destruct (truthy tok); eexists; by rewrite ?Hpay.
Qed.

(** What the profile of a public view carries. *)
Lemma public_profile_facts d av t :
  let p := <["token" := t]> (<["avatar" := av]> (transformDocuments d)) in
  get "_id" p = get "_id" d ∧ get "email" p = get "email" d ∧
  p !! "password" = None ∧ get "token" p = t.
Proof.
  simpl. split_and!.
  - rewrite (get_insert "_id" "token"), decide_False by done.
    apply get_public_view; [apply public_id | done].
  - rewrite (get_insert "email" "token"), decide_False by done.
    apply get_public_view; [apply public_email | done].
  - rewrite !lookup_insert_ne by done. apply transformDocuments_no_password.
  - by rewrite get_insert, decide_True.
Qed.

(** The run of [login] with the e-mail of an account and a password
    that matches its hash. *)
Lemma login_run m email password w u hash :
  store_down w = None →
  find_by "email" (VStr email) (users w) = Some u →
  get "password" u = VStr hash → bcrypt_compare password hash = true →
  ∃ av, login m email password w =
        (Resolved (Json (Some
           (<["token" := if truthy (token m) then token m
                         else VStr (jwt_sign (token_payload u (now w)) JWT_SECRET)]>
              (<["avatar" := av]> (transformDocuments u))))),
         emit (FindOne "email" (VStr email)) w).
Proof.
  intros Hup Hu Hpw Hcmp.
  assert (get "email" u = VStr email) as Hemail.
  { apply find_by_Some in Hu as [_ Hu]. unfold get. by rewrite Hu. }
  unfold login. rewrite bind_run, findOne_up, Hu by done.
  unfold compare. rewrite Hpw. plumb. rewrite Hcmp. cbv [negb].
  destruct (transformEntity_public u (token m)
              (emit (FindOne "email" (VStr email)) w) email Hemail) as [av ->].
  by exists av.
Qed.

(** X4.  A login with the e-mail of an account and a password that matches
    its hash succeeds: the answer is the public view of that account (same
    [_id], the e-mail, no [password]), with the session token of the caller
    when the request came with one and otherwise a token signed for the
    account at the time of the call. *)
Theorem login_succeeds m email password w u hash :
  store_down w = None →
  find_by "email" (VStr email) (users w) = Some u →
  get "password" u = VStr hash → bcrypt_compare password hash = true →
  ∃ p, settles (login m email password) w = Resolved (Json (Some p)) ∧
       get "_id" p = get "_id" u ∧
       get "email" p = VStr email ∧
       p !! "password" = None ∧
       get "token" p =
         if truthy (token m) then token m
         else VStr (jwt_sign (token_payload u (now w)) JWT_SECRET).
Proof.
  intros Hup Hu Hpw Hcmp.
  destruct (login_run m email password w u hash) as [av Hrun]; [done..|].
  unfold settles. rewrite Hrun. simpl. eexists. split; [reflexivity|].
  destruct (public_profile_facts u av
              (if truthy (token m) then token m
               else VStr (jwt_sign (token_payload u (now w)) JWT_SECRET)))
    as (Hid & Hemail & Hnopw & Htok).
  split_and!; [done| |done|done].
  rewrite Hemail. apply find_by_Some in Hu as [_ Hu]. unfold get. by rewrite Hu.
Qed.



(* --------------------------------------------------------------------- *)
(** *** [create]: what a registration does, step by step *)
(* --------------------------------------------------------------------- *)

(** The check on a property the entity carries resolves only when the
    store is in reach and no document has the value. *)
Lemma create_check_passes fld msg e w a w' :
  truthy (get fld e) = true →
  create_check fld msg e w = (Resolved a, w') →
  store_down w = None ∧ find_by fld (get fld e) (users w) = None ∧
  w' = emit (FindOne fld (get fld e)) w.
Proof.
  intros Ht. unfold create_check, adapter_findOne, adapter_call. rewrite Ht. plumb.
  destruct (store_down w) eqn:Hup; [done|].
  destruct (find_by fld (get fld e) (users w)); cbn; [done|].
  by intros [= _ <-].
Qed.

(** The world a registration that succeeds leaves. *)
Lemma create_Resolved_world m e w j w' :
  create m e w = (Resolved j, w') →
  ∃ pw,
    get "password" e = VStr pw ∧
    let entity := <["createdAt" := VDate (now w)]>
                    (<["password" := VStr (bcrypt_hashSync pw 10)]> e) in
    w' = World
           (users w ++ [<["_id" := VStr (new_id (users w))]> (User_cast entity)])
           None ∅ (now w)
           (log w ++ [ FindOne "username" (get "username" e);
                       FindOne "email" (get "email" e);
                       Insert entity;
                       CacheClean;
                       EntityChanged "created" j ]).
Proof.
  intros Hrun. unfold create in Hrun.
  unbind Hrun. rewrite validateEntity_run in Hrun0.
  destruct (valid_entity e) eqn:Hv; [|done]. injection Hrun0 as _ <-.
  unbind Hrun.
  apply create_check_passes in Hrun0 as (Hup & _ & ->);
    [|by apply valid_entity_username].
  unbind Hrun.
  apply create_check_passes in Hrun0 as (_ & _ & ->);
    [|by apply valid_entity_email].
  unbind Hrun. unfold hashSync in Hrun0.
  destruct (get "password" e) as [| | | | |pw|]; try done. injection Hrun0 as <- <-.
  unbind Hrun. injection Hrun0 as <- <-.
  unbind Hrun. unfold adapter_insert, adapter_call in Hrun0. simpl in Hrun0.
  rewrite Hup in Hrun0. injection Hrun0 as <- <-.
  unbind Hrun. apply transformEntity_Some in Hrun0 as (-> & _).
  unbind Hrun. plumb_in Hrun. injection Hrun as <- <-.
  unfold entityChanged, cacher_clean in Hrun0. plumb_in Hrun0.
  injection Hrun0 as _ <-.
  exists pw. split; [done|]. simpl. unfold emit, set_cache, set_users. simpl.
  rewrite Hup. by rewrite <- !app_assoc.
Qed.


(** X7.  What a registration does to the cache: when it succeeds the
    cache of the service is empty afterwards, and when it fails, at whatever
    step, the cache is as it was. *)
Theorem create_cache m e w :
  cache (leaves (create m e) w) =
  match settles (create m e) w with
  | Resolved _ => ∅
  | Rejected _ => cache w
  end.
Proof.
  unfold settles, leaves. destruct (create m e w) as [[j|err] w'] eqn:Hrun; simpl.
  - by apply create_Resolved_world in Hrun as (pw & _ & ->).
  - assert (∀ fld msg, keeps cache (create_check fld msg e)) as Hchk.
    { intros fld msg. pose proof (@keeps_cache_adapter_call (option doc)).
      unfold create_check, adapter_findOne. frames. }
    assert (∀ v r, keeps cache (hashSync v r)) as Hhash
      by (intros v r; unfold hashSync; frames).
    assert (∀ x, keeps cache (adapter_insert x)) as Hins
      by (intros x; apply keeps_cache_adapter_call).
    pose proof (keeps_transformEntity cache) as Htr.
    unfold create in Hrun.
    apply bind_Rejected in Hrun as [Hrun|(a & w1 & H1 & Hrun)].
    { rewrite validateEntity_run in Hrun. by destruct (valid_entity e); simplify_eq. }
    rewrite validateEntity_run in H1. destruct (valid_entity e); simplify_eq.
    repeat match type of Hrun with
    | (?c ≫= _) ?w0 = (Rejected _, _) =>
        let Hk := fresh "Hk" in
        assert (keeps cache c) as Hk by auto using keeps_new_Date;
        specialize (Hk w0);
        apply bind_Rejected in Hrun as [Hrun|(? & ? & H1 & Hrun)];
        [ rewrite Hrun in Hk; simpl in Hk; congruence
        | rewrite H1 in Hk; simpl in Hk; clear H1 ]
    end.
    unfold entityChanged, cacher_clean in Hrun. plumb_in Hrun. done.
Qed.


(* --------------------------------------------------------------------- *)
(** *** [registerwithtoken] *)
(* --------------------------------------------------------------------- *)

(** The request [registerwithtoken] sends to the provider. *)
Lemma axios_get_user_run p w :
  axios_get_user p w =
  (github_user (rt_access_token p) (rt_token_type p) (rt_scope p),
   emit (HttpGet "https://api.github.com/user"
           (<["access_token" := VStr (rt_access_token p)]>
           (<["token_type" := VStr (rt_token_type p)]>
           (<["scope" := VStr (rt_scope p)]> ∅)))) w).
Proof. reflexivity. Qed.

(** X8.  When the call to the provider fails, [registerwithtoken] fails
    with "bad details!" (422) whatever the provider's error was, and the one
    thing it has done is that request: the store is not called and no
    account is created. *)
Theorem registerwithtoken_provider_failure m p w err :
  github_user (rt_access_token p) (rt_token_type p) (rt_scope p) = Rejected err →
  settles (registerwithtoken m p) w
    = Rejected (MoleculerClientError "bad details!" 422 None None) ∧
  users (leaves (registerwithtoken m p) w) = users w ∧
  log (leaves (registerwithtoken m p) w) =
    log w ++ [HttpGet "https://api.github.com/user"
                (<["access_token" := VStr (rt_access_token p)]>
                (<["token_type" := VStr (rt_token_type p)]>
                (<["scope" := VStr (rt_scope p)]> ∅)))].
Proof.
  intros Hfail. unfold settles, leaves, registerwithtoken, try_catch.
  rewrite bind_run, axios_get_user_run, Hfail. done.
Qed.

Lemma provider_user_username p data :
  get "username" (provider_user p data) = get "name" data.
Proof. unfold provider_user. rewrite !get_insert. by repeat case_decide. Qed.

(** X9.  A provider profile without a usable display name cannot sign up.
    When the provider answers and the [name] of its profile is not a string
    of at least two characters (it is [null] for an account that has set
    none), [registerwithtoken] fails with "bad details!": the entity does not
    pass the validation of [create], the store is not called and no account
    is created. *)
Theorem registerwithtoken_nameless m p w data :
  github_user (rt_access_token p) (rt_token_type p) (rt_scope p) = Resolved data →
  (∀ s, get "name" data = VStr s → (String.length s < 2)%nat) →
  settles (registerwithtoken m p) w
    = Rejected (MoleculerClientError "bad details!" 422 None None) ∧
  users (leaves (registerwithtoken m p) w) = users w ∧
  log (leaves (registerwithtoken m p) w) =
    log w ++ [HttpGet "https://api.github.com/user"
                (<["access_token" := VStr (rt_access_token p)]>
                (<["token_type" := VStr (rt_token_type p)]>
                (<["scope" := VStr (rt_scope p)]> ∅)))].
Proof.
  intros Hfetch Hname.
  assert (valid_entity (provider_user p data) = false) as Hinvalid.
  { unfold valid_entity, entityValidator. simpl forallb.
    rewrite provider_user_username.
    destruct (get "name" data) as [| | | | |s|] eqn:Hn; try done. simpl.
    rewrite bool_decide_eq_false_2; [done|]. specialize (Hname s eq_refl). lia. }
  unfold settles, leaves, registerwithtoken, try_catch.
  rewrite bind_run, axios_get_user_run, Hfetch.
  unfold create. rewrite !bind_run, validateEntity_run, Hinvalid. done.
Qed.



(* --------------------------------------------------------------------- *)
(** *** Writes reach one account *)
(* --------------------------------------------------------------------- *)

Section Moves.
Context (R : list doc → list doc → Prop) `{!Reflexive R, !Transitive R}.
Context {A B : Type}.

Lemma moves_keeps (c : M A) : keeps users c → moves R c.
Proof. intros Hc w. by rewrite Hc. Qed.

Lemma moves_bind (c : M A) (k : A → M B) :
  moves R c → (∀ a, moves R (k a)) → moves R (c ≫= k).
Proof.
  intros Hc Hk w. rewrite bind_run. specialize (Hc w).
  destruct (c w) as [[a|e] w1]; simpl in *; [|done].
  by etrans; [|apply Hk].
Qed.

Lemma moves_try_catch (c : M A) (h : error → M A) :
  moves R c → (∀ e, moves R (h e)) → moves R (try_catch c h).
Proof.
  intros Hc Hh w. unfold try_catch. specialize (Hc w).
  destruct (c w) as [[a|e] w1]; simpl in *; [done|].
  by etrans; [|apply Hh].
Qed.

Lemma moves_bind_ret (a : A) (k : A → M B) :
  moves R (k a) → moves R (mret a ≫= k).
Proof. intros Hk w. apply Hk. Qed.

End Moves.

Lemma keeps_users_tell ev : keeps users (tell ev).
Proof. by intros w. Qed.

Lemma keeps_users_cacher_clean : keeps users cacher_clean.
Proof. by intros w. Qed.

Lemma keeps_users_entityChanged type j : keeps users (entityChanged type j).
Proof.
  pose proof keeps_users_tell. pose proof keeps_users_cacher_clean.
  unfold entityChanged. frames.
Qed.

Lemma keeps_users_update_check fld msg m nd : keeps users (update_check fld msg m nd).
Proof.
  pose proof keeps_users_findOne.
  unfold update_check, toString, meta_user1_id. frames.
Qed.

Lemma keeps_users_create_check fld msg e : keeps users (create_check fld msg e).
Proof. pose proof keeps_users_findOne. unfold create_check. frames. Qed.

(** Walk through a handler that writes: each step moves the collection
    along [R], most of them by keeping it. *)
Ltac moving :=
  repeat first
    [ solve [auto]
    | solve [apply moves_keeps; try solve [apply _]; intros ?; reflexivity]
    | apply moves_keeps; try solve [apply _];
        first [ apply keeps_ret | apply keeps_throw | apply keeps_settled
              | apply keeps_new_Date | apply keeps_users_tell
              | apply keeps_users_cacher_clean
              | apply keeps_users_entityChanged | apply keeps_users_update_check
              | apply keeps_users_create_check | apply keeps_users_findOne
              | apply keeps_users_findById | apply keeps_transformEntity ]
    | apply moves_bind_ret
    | apply moves_bind; try solve [apply _]; [|intros ?]
    | apply moves_try_catch; try solve [apply _]; [|intros ?]
    | match goal with
      | |- moves _ (if ?b then _ else _) => destruct b
      | |- moves _ (match ?x with _ => _ end) => destruct x
      end ].

#[local] Instance others_stay_refl id : Reflexive (others_stay id).
Proof. by intros us. Qed.

#[local] Instance others_stay_trans id : Transitive (others_stay id).
Proof.
  intros us1 us2 us3 [Hl1 H1] [Hl2 H2]. split; [congruence|].
  intros i d Hi Hd. apply H2; [|done]. by apply H1.
Qed.

Lemma update_first_others id u us : others_stay id us (update_first id u us).2.
Proof.
  induction us as [|d us [IHl IH]]; [done|]. simpl.
  destruct (bool_decide (d !! "_id" = Some id)) eqn:Hd.
  - apply bool_decide_eq_true in Hd.
    destruct (apply_update u d) as [d'|e]; simpl; (split; [done|]);
      intros [|i] x Hi Hx; simpl in *; [congruence|done|done|done].
  - destruct (update_first id u us) as [r us']. simpl in *.
    split; [simpl; by rewrite IHl|].
    intros [|i] x Hi Hx; simpl in *; [done|]. by apply IH.
Qed.

Lemma moves_updateById id u : moves (others_stay id) (adapter_updateById id u).
Proof.
  intros w. unfold adapter_updateById, adapter_call.
  destruct (store_down w); [done|].
  pose proof (update_first_others id u (users w)) as Hu.
  by destruct (update_first id u (users w)).
Qed.

(** X11.  [updateMyself] writes to the caller's account only: every
    account whose [_id] is not the one of the authenticated user is, after
    the call, where it was and as it was, whatever the patch and however the
    call settles. *)
Theorem updateMyself_others m newData w i d :
  users w !! i = Some d →
  (∀ me, user1 m = Some me → d !! "_id" ≠ Some (get "_id" me)) →
  users (leaves (updateMyself m newData) w) !! i = Some d.
Proof.
  intros Hi Hd. unfold leaves. destruct (user1 m) as [me|] eqn:Hme.
  - assert (moves (others_stay (get "_id" me)) (updateMyself m newData)) as Hm.
    { pose proof (moves_updateById (get "_id" me)).
      unfold updateMyself, meta_user1_id. rewrite Hme. moving. }
    destruct (Hm w) as [_ Hstay]. apply Hstay; auto.
  - assert (keeps users (updateMyself m newData)) as Hk.
    { pose proof keeps_users_update_check.
      unfold updateMyself, meta_user1_id. rewrite Hme. frames. }
    by rewrite Hk.
Qed.


(** X12.  [deductWallet] writes to the account it names only: every
    account whose [_id] is not the [_id] of the payload is, after the call,
    where it was and as it was. *)
Theorem deductWallet_others payload w i d :
  users w !! i = Some d →
  d !! "_id" ≠ Some (get "_id" payload) →
  users (leaves (deductWallet payload) w) !! i = Some d.
Proof.
  intros Hi Hd. unfold leaves. rewrite deductWallet_run.
  destruct (moves_updateById (get "_id" payload)
              (UInc "wallet" (js_neg ToNumber_str (get "cost" payload))) w)
    as [_ Hstay].
  by apply Hstay.
Qed.

#[local] Instance none_removed_refl : Reflexive none_removed.
Proof. intros us. unfold none_removed. lia. Qed.

#[local] Instance none_removed_trans : Transitive none_removed.
Proof. intros us1 us2 us3. unfold none_removed. lia. Qed.








(* --------------------------------------------------------------------- *)
(** *** [updateMyself] *)
(* --------------------------------------------------------------------- *)

(** A check of [updateMyself] on a value that is free for the caller
    passes, and changes nothing but the log. *)
Lemma update_check_clear fld msg m nd w me own :
  store_down w = None → user1 m = Some me → get "_id" me = VStr own →
  clear_for own fld nd w →
  ∃ w1, update_check fld msg m nd w = (Resolved (), w1) ∧
        users w1 = users w ∧ store_down w1 = None ∧
        now w1 = now w ∧ cache w1 = cache w.
Proof.
  intros Hup Hme Hown Hclear. unfold update_check.
  destruct (truthy (get fld nd)) eqn:Ht; [|by exists w].
  rewrite bind_run, findOne_up by done.
  destruct Hclear as [?|[Hnone|(o & Ho & Hid)]]; [congruence| |].
  - rewrite Hnone. by eexists.
  - rewrite Ho. unfold toString, meta_user1_id. rewrite Hid, Hme, Hown. plumb.
    cbn [js_String]. rewrite String.eqb_refl. by eexists.
Qed.

(** A check of [updateMyself] on a value that another account has fails
    with the conflict. *)
Lemma update_check_conflict fld msg m nd w me own o other :
  store_down w = None → user1 m = Some me → get "_id" me = VStr own →
  truthy (get fld nd) = true →
  find_by fld (get fld nd) (users w) = Some o →
  get "_id" o = VStr other → other ≠ own →
  update_check fld msg m nd w
  = (Rejected (conflict msg fld), emit (FindOne fld (get fld nd)) w).
Proof.
  intros Hup Hme Hown Ht Ho Hid Hne. unfold update_check.
  rewrite Ht, bind_run, findOne_up, Ho by done.
  unfold toString, meta_user1_id. rewrite Hid, Hme, Hown. plumb. cbn [js_String].
  by rewrite (proj2 (String.eqb_neq _ _) Hne).
Qed.

Lemma clear_for_users own fld nd w w1 :
  users w1 = users w → clear_for own fld nd w → clear_for own fld nd w1.
Proof. unfold clear_for. by intros ->. Qed.

(** X14.  [updateMyself] guards the uniqueness of username and e-mail
    against the other accounts.  With the store in reach and the caller
    authenticated: a patch whose username is held by an account with another
    id fails with the conflict on the [username] field; a patch whose
    username is free for the caller and whose e-mail is held by an account
    with another id fails with the conflict on the [email] field; in both
    cases nothing is written. *)
Theorem updateMyself_conflict m nd w me own o other :
  store_down w = None → user1 m = Some me → get "_id" me = VStr own →
  get "_id" o = VStr other → other ≠ own →
  (truthy (get "username" nd) = true →
   find_by "username" (get "username" nd) (users w) = Some o →
   settles (updateMyself m nd) w = Rejected (conflict "Username is exist!" "username") ∧
   users (leaves (updateMyself m nd) w) = users w) ∧
  (clear_for own "username" nd w →
   truthy (get "email" nd) = true →
   find_by "email" (get "email" nd) (users w) = Some o →
   settles (updateMyself m nd) w = Rejected (conflict "Email is exist!" "email") ∧
   users (leaves (updateMyself m nd) w) = users w).
Proof.
  intros Hup Hme Hown Hid Hne. unfold settles, leaves, updateMyself. split.
  - intros Ht Ho. rewrite bind_run.
    by rewrite (update_check_conflict _ _ _ _ _ me own o other).
  - intros Hclear Ht Ho. rewrite bind_run.
    destruct (update_check_clear "username" "Username is exist!" m nd w me own)
      as (w1 & -> & Hus & Hup1 & _); [done..|].
    rewrite bind_run. rewrite <- Hus in Ho.
    rewrite (update_check_conflict _ _ _ _ _ me own o other) by done.
    simpl. by rewrite Hus.
Qed.



(** X16.  An update for an account that is gone.  With the store in
    reach and both checks passing, when no account has the id of the
    authenticated user, [updateMyself] does not fail: it resolves with
    [{ user: null }], the collection is as it was and the cache has been
    cleaned. *)
Theorem updateMyself_gone m nd w me own :
  store_down w = None → user1 m = Some me → get "_id" me = VStr own →
  clear_for own "username" nd w → clear_for own "email" nd w →
  find_by "_id" (VStr own) (users w) = None →
  settles (updateMyself m nd) w = Resolved (Json None) ∧
  users (leaves (updateMyself m nd) w) = users w ∧
  cache (leaves (updateMyself m nd) w) = ∅.
Proof.
  intros Hup Hme Hown Hc1 Hc2 Hnone. unfold settles, leaves, updateMyself.
  rewrite bind_run.
  destruct (update_check_clear "username" "Username is exist!" m nd w me own)
    as (w1 & -> & Hus1 & Hup1 & Hn1 & _); [done..|].
  rewrite bind_run.
  destruct (update_check_clear "email" "Email is exist!" m nd w1 me own)
    as (w2 & -> & Hus2 & Hup2 & Hn2 & _); [by eauto using clear_for_users..|].
  unfold meta_user1_id. rewrite Hme, Hown.
  rewrite bind_run. simpl. rewrite bind_run. simpl. rewrite bind_run.
  unfold adapter_updateById. rewrite adapter_call_up by done.
  rewrite update_first_miss by congruence. simpl.
  split_and!; [done| congruence |done].
Qed.


(* --------------------------------------------------------------------- *)
(** *** [me] and [getbygitID] *)
(* --------------------------------------------------------------------- *)


(** X18.  How [me] fails: without an authenticated user in the context it
    is a type error and the store is not called; with one whose account is
    gone, and the store in reach, it is "User not found!" with code 400. *)
Theorem me_failures m w :
  (user1 m = None →
   settles (me m) w = Rejected (TypeError "Cannot read properties of undefined") ∧
   log (leaves (me m) w) = log w) ∧
  (∀ me0, user1 m = Some me0 → store_down w = None →
   find_by "_id" (get "_id" me0) (users w) = None →
   settles (me m) w = Rejected (MoleculerClientError "User not found!" 400 None None)).
Proof.
  unfold settles, leaves, me, meta_user1_id, getById. split.
  - by intros ->.
  - intros me0 -> Hup Hnone. rewrite bind_run. simpl.
    by rewrite bind_run, findById_up, Hnone.
Qed.

(** X19.  What [getbygitID] answers is the plain public view of a stored
    account with that [git_id]: no [password], and, unlike the profiles of
    [login] and [me], no [token] and no derived avatar (the avatar is the
    stored one, or missing). *)
Theorem getbygitID_answer id w d :
  settles (getbygitID id) w = Resolved d →
  ∃ acc, acc ∈ users w ∧ acc !! "git_id" = Some (VStr id) ∧
         d = transformDocuments acc ∧
         d !! "password" = None ∧ d !! "token" = None ∧
         get "avatar" d = get "avatar" acc.
Proof.
  unfold settles. destruct (getbygitID id w) as [o w'] eqn:Hrun. simpl. intros ->.
  unfold getbygitID in Hrun. unbind Hrun. destruct a as [acc|]; [|done].
  injection Hrun as <- _.
  unfold adapter_findOne, adapter_call in Hrun0.
  destruct (store_down w); [done|]. injection Hrun0 as Hfind _.
  apply find_by_Some in Hfind as [Hin Hgit].
  exists acc. split_and!; try done.
  - apply transformDocuments_no_password.
  - destruct (transformDocuments acc !! "token") eqn:E; [|done].
    apply filterFields_lookup in E.
    unfold fields in E. repeat (apply elem_of_cons in E as [?|E]; [done|]).
    by apply elem_of_nil in E.
  - unfold transformDocuments. rewrite get_filterFields, decide_True; [done|].
    do 5 (apply elem_of_cons; right). apply elem_of_cons. by left.
Qed.

(* --------------------------------------------------------------------- *)
(** *** The cache of [resolveToken] over time *)
(* --------------------------------------------------------------------- *)

(** What a call of [resolveToken] that misses the cache and resolves has
    put in the cache. *)
Lemma resolveToken_miss_Resolved tok w r :
  live_entry tok w = None →
  settles (resolveToken tok) w = Resolved r →
  cache (leaves (resolveToken tok) w) !! tok = Some (r, now w + resolveToken_ttl_ms).
Proof.
  intros Hlive. unfold settles, leaves, resolveToken.
  rewrite cached_miss by done.
  assert (keeps now (resolveToken_handler tok)) as Hnow.
  { assert (∀ id, keeps now (adapter_findById id)) as Hf.
    { intros id w0. unfold adapter_findById, adapter_call. by destruct (store_down w0). }
    unfold resolveToken_handler, jwt_verify, getById. frames. }
  specialize (Hnow (after_get tok w)).
  destruct (after_get_frame tok w) as (_ & _ & Hn & _).
  destruct (resolveToken_handler tok (after_get tok w)) as [[r'|e] w1]; simpl in *;
    [|done].
  intros [= ->]. rewrite lookup_insert_eq. unfold resolveToken_ttl_ms. congruence.
Qed.


(** X21.  After the hour the token is verified again.  After a call of
    [resolveToken] that missed the cache and resolved, once more than 3600
    seconds have passed a call with a token whose expiry has been reached
    fails with the expiry error: a stale answer does not outlive the hour. *)
Theorem resolveToken_after_ttl tok w r t payload exp :
  live_entry tok w = None →
  settles (resolveToken tok) w = Resolved r →
  now w + resolveToken_ttl_ms < t →
  jwt_decode tok JWT_SECRET = Some payload → get "exp" payload = VNum exp →
  exp ≤ t / 1000 →
  settles (resolveToken tok) (set_now t (leaves (resolveToken tok) w))
  = Rejected (TokenExpiredError "jwt expired").
Proof.
  intros Hlive Hres Ht Hdec Hexp Hle.
  pose proof (resolveToken_miss_Resolved tok w r Hlive Hres) as Hc.
  set (w1 := leaves (resolveToken tok) w) in *.
  assert (live_entry tok (set_now t w1) = None) as Hlive'.
  { unfold live_entry. simpl. rewrite Hc. destruct r; try done.
    by rewrite (proj2 (Z.ltb_lt _ _) Ht). }
  unfold settles, resolveToken.
  rewrite cached_miss, resolveToken_handler_run by done.
  destruct (after_get_frame tok (set_now t w1)) as (_ & _ & -> & _). simpl.
  by rewrite (check_token_expired _ _ _ payload exp).
Qed.

(** X22.  [deductWallet] does not clean the cache.  An account that the
    cache holds for a token is still what [resolveToken] answers after a
    [deductWallet], with the balance it had when it was cached. *)
Theorem deductWallet_keeps_cache payload tok w d :
  live_entry tok w = Some d →
  settles (resolveToken tok) (leaves (deductWallet payload) w) = Resolved (RDoc d).
Proof.
  intros Hlive. unfold settles, leaves, resolveToken.
  rewrite (cached_hit _ _ _ _ d); [done|].
  unfold live_entry in *. rewrite deductWallet_run.
  unfold adapter_updateById. rewrite adapter_call_cache.
  assert (now (adapter_call
                 (UpdateById (get "_id" payload)
                    (UInc "wallet" (js_neg ToNumber_str (get "cost" payload))))
                 (update_first (get "_id" payload)
                    (UInc "wallet" (js_neg ToNumber_str (get "cost" payload)))) w).2
          = now w) as ->; [|done].
  unfold adapter_call. destruct (store_down w); [done|].
  by destruct (update_first _ _ (users w)).
Qed.


(* --------------------------------------------------------------------- *)
(** *** Calls in sequence *)
(* --------------------------------------------------------------------- *)



(** What a registration that succeeds had checked. *)
Lemma create_Resolved_free m e w j w' :
  create m e w = (Resolved j, w') →
  store_down w = None ∧
  find_by "username" (get "username" e) (users w) = None ∧
  find_by "email" (get "email" e) (users w) = None.
Proof.
  intros Hrun. unfold create in Hrun.
  unbind Hrun. rewrite validateEntity_run in Hrun0.
  destruct (valid_entity e) eqn:Hv; [|done]. injection Hrun0 as _ <-.
  unbind Hrun.
  apply create_check_passes in Hrun0 as (Hup & Hu & ->);
    [|by apply valid_entity_username].
  unbind Hrun.
  apply create_check_passes in Hrun0 as (_ & He & ->);
    [|by apply valid_entity_email].
  done.
Qed.

Lemma find_by_app_new fld v us d :
  find_by fld v us = None → d !! fld = Some v → find_by fld v (us ++ [d]) = Some d.
Proof.
  unfold find_by. intros Hnone Hd. induction us as [|x us IH]; simpl in *.
  - by rewrite bool_decide_eq_true_2.
  - destruct (bool_decide (x !! fld = Some v)); [done|]. by apply IH.
Qed.

Lemma valid_entity_lookup e fld :
  truthy (get fld e) = true → e !! fld = Some (get fld e).
Proof. unfold get. by destruct (e !! fld). Qed.

(** X24.  Registering twice.  When the model keeps the [username] of an
    entity, a registration that succeeded makes every later registration of
    a valid candidate with the same username fail with the conflict on the
    [username] field; and when the model keeps the [email], a later valid
    candidate with the same e-mail and a free username fails with the
    conflict on the [email] field. *)
Theorem register_twice m e j w m' e' :
  settles (create m e) w = Resolved j →
  valid_entity e' = true →
  ((∀ x, User_cast x !! "username" = x !! "username") →
   get "username" e' = get "username" e →
   settles (create m' e') (leaves (create m e) w)
   = Rejected (conflict "Username is exist!" "username")) ∧
  ((∀ x, User_cast x !! "email" = x !! "email") →
   get "email" e' = get "email" e →
   ¬ taken "username" e' (leaves (create m e) w) →
   settles (create m' e') (leaves (create m e) w)
   = Rejected (conflict "Email is exist!" "email")).
Proof.
  unfold settles at 1, leaves. destruct (create m e w) as [o w1] eqn:Hrun. simpl.
  intros -> Hv'.
  assert (valid_entity e = true) as Hv.
  { unfold create in Hrun. unbind Hrun. rewrite validateEntity_run in Hrun0.
    by destruct (valid_entity e). }
  pose proof (create_Resolved_free _ _ _ _ _ Hrun) as (Hup & _ & _).
  apply create_Resolved_world in Hrun as (pw & Hpw & ->).
  set (d := <["_id" := _]> _). split.
  - intros Hcast Hsame. unfold settles.
    rewrite create_username_taken; [done..|].
    exists d. split; [apply elem_of_app; right; apply elem_of_cons; by left|].
    unfold d. rewrite lookup_insert_ne, Hcast, !lookup_insert_ne, Hsame by done.
    by apply valid_entity_lookup, valid_entity_username.
  - intros Hcast Hsame Hfree. unfold settles.
    rewrite create_email_taken; [done..|].
    exists d. split; [apply elem_of_app; right; apply elem_of_cons; by left|].
    unfold d. rewrite lookup_insert_ne, Hcast, !lookup_insert_ne, Hsame by done.
    by apply valid_entity_lookup, valid_entity_email.
Qed.


(** X25.  Register, then log in.  When the model keeps the [email] and the
    [password] of an entity and bcrypt's [compare] accepts the password
    against the hash [hashSync] made of it, then after a registration that
    succeeded, a login with the e-mail and the password of the candidate
    succeeds, and the profile it answers is the one of the account the
    registration created. *)
Theorem register_then_login m e j w m' email pw :
  (∀ x, User_cast x !! "email" = x !! "email") →
  (∀ x, User_cast x !! "password" = x !! "password") →
  bcrypt_compare pw (bcrypt_hashSync pw 10) = true →
  settles (create m e) w = Resolved j →
  get "email" e = VStr email → get "password" e = VStr pw →
  ∃ p, settles (login m' email pw) (leaves (create m e) w) = Resolved (Json (Some p)) ∧
       get "_id" p = VStr (new_id (users w)) ∧
       get "email" p = VStr email ∧
       p !! "password" = None.
Proof.
  intros Hcast_e Hcast_p Hcmp.
  unfold settles at 1, leaves. destruct (create m e w) as [o w1] eqn:Hrun. simpl.
  intros -> Hemail Hpw.
  pose proof (create_Resolved_free _ _ _ _ _ Hrun) as (Hup & _ & Hfree).
  apply create_Resolved_world in Hrun as (pw' & Hpw' & ->).
  rewrite Hpw in Hpw'. injection Hpw' as <-.
  set (d := <["_id" := _]> _).
  assert (d !! "email" = Some (VStr email)) as Hd_email.
  { unfold d. rewrite lookup_insert_ne, Hcast_e, !lookup_insert_ne by done.
    unfold get in Hemail. by destruct (e !! "email"); simplify_eq/=. }
  assert (get "password" d = VStr (bcrypt_hashSync pw 10)) as Hd_pw.
  { unfold get, d.
    by rewrite lookup_insert_ne, Hcast_p, lookup_insert_ne, lookup_insert_eq. }
  destruct (login_run m' email pw
              (World (users w ++ [d]) None ∅ (now w)
                 (log w ++ [FindOne "username" (get "username" e);
                            FindOne "email" (get "email" e);
                            Insert (<["createdAt" := VDate (now w)]>
                                      (<["password" := VStr (bcrypt_hashSync pw 10)]> e));
                            CacheClean; EntityChanged "created" j]))
              d (bcrypt_hashSync pw 10))
    as (av & Hrun); [done| |done|done|].
  { simpl. apply find_by_app_new; [by rewrite <- Hemail|done]. }
  unfold settles. rewrite Hrun. simpl. eexists. split; [reflexivity|].
  match goal with
  | |- context [<["token" := ?t]> _] =>
      destruct (public_profile_facts d av t) as (Hid & Hem & Hnopw & _)
  end.
  split_and!; [|rewrite Hem; unfold get; by rewrite Hd_email|done].
  rewrite Hid. unfold get, d. by rewrite lookup_insert_eq.
Qed.


(* --------------------------------------------------------------------- *)
(** *** Profiles *)
(* --------------------------------------------------------------------- *)

(** X28.  No profile carries the password.  Whatever [create], [login],
    [me], [updateMyself] or [registerwithtoken] resolves with, the user
    object in it, when there is one, has no [password] property. *)
Theorem profiles_without_password m e email pw nd p w j u :
  settles (create m e) w = Resolved j ∨
  settles (login m email pw) w = Resolved j ∨
  settles (me m) w = Resolved j ∨
  settles (updateMyself m nd) w = Resolved j ∨
  settles (registerwithtoken m p) w = Resolved j →
  user j = Some u →
  u !! "password" = None.
Proof.
  intros [H1|[H2|[H3|[H4|H5]]]] Hu;
    eauto using create_no_password, login_no_password, me_no_password,
      updateMyself_no_password, registerwithtoken_no_password.
Qed.

(* --------------------------------------------------------------------- *)
(** *** What two handlers never do *)
(* --------------------------------------------------------------------- *)

(** X26.  [registerwithtoken] fails in one way only: whatever goes wrong
    inside it (the provider, the validation, a conflict, the store), the
    error the caller gets is "bad details!" with code 422, without type and
    without data. *)
Theorem registerwithtoken_fails_one_way m p w e :
  settles (registerwithtoken m p) w = Rejected e →
  e = MoleculerClientError "bad details!" 422 None None.
Proof.
  unfold settles, registerwithtoken, try_catch.
  match goal with
  | |- context [match ?c w with _ => _ end] => destruct (c w) as [[j|err] w1]
  end; simpl.
  - discriminate.
  - by intros [= <-].
Qed.

(** X27.  [deductWallet] calls the store once.  Whatever the payload and
    the state of the store, and however the call settles, what the handler
    has issued is one [updateById] on the [_id] of the payload with the
    increment of [wallet] by minus the [cost]: no lookup goes before it and
    nothing follows it. *)
Theorem deductWallet_single_call payload w :
  log (leaves (deductWallet payload) w) =
  log w ++ [UpdateById (get "_id" payload)
              (UInc "wallet" (js_neg ToNumber_str (get "cost" payload)))].
Proof.
  unfold leaves. rewrite deductWallet_run.
  unfold adapter_updateById, adapter_call.
  destruct (store_down w) as [down|]; [done|].
  by destruct (update_first _ _ (users w)).
Qed.

End More.

(* ===================================================================== *)
(** ** More runs on the concrete world *)
(* ===================================================================== *)

Module MoreRuns.
#[local] Existing Instance Demo.env.

(** X4, witness: alice logs in. *)
Lemma login_succeeds_witness :
  ∃ p, settles (login Demo.anonymous "alice@example.org" "s3cret!") Demo.w0
       = Resolved (Json (Some p)) ∧
       get "_id" p = VStr "u1" ∧ get "token" p = VStr "jwt(u1,5185500)".
Proof.
  destruct (login_succeeds Demo.anonymous "alice@example.org" "s3cret!" Demo.w0
              Demo.alice "$2a$10$s3cret!")
    as (p & Hres & Hid & _ & _ & Htok).
  - reflexivity.
  - vm_compute. reflexivity.
  - vm_compute. reflexivity.
  - vm_compute. reflexivity.
  - exists p. split; [exact Hres|]. split.
    + rewrite Hid. vm_compute. reflexivity.
    + rewrite Htok. vm_compute. reflexivity.
Defined.


(** X8, witness: the provider refuses the access token. *)
Lemma registerwithtoken_provider_failure_witness :
  settles (registerwithtoken Demo.anonymous Town.refused) Demo.w0
  = Rejected (MoleculerClientError "bad details!" 422 None None) ∧
  users (leaves (registerwithtoken Demo.anonymous Town.refused) Demo.w0) = [Demo.alice].
Proof.
  destruct (registerwithtoken_provider_failure Demo.anonymous Town.refused Demo.w0
              (HttpError "Request failed with status code 401"))
    as (Hres & Hus & _).
  - reflexivity.
  - split; [exact Hres | exact Hus].
Defined.


(** X11, witness: bob's update leaves alice alone. *)
Lemma updateMyself_others_witness :
  users (leaves (updateMyself Town.as_bob Town.new_handle) Town.w) !! 0%nat
  = Some Demo.alice.
Proof.
  apply (updateMyself_others Town.as_bob Town.new_handle Town.w 0 Demo.alice).
  - reflexivity.
  - intros me [= <-]. vm_compute. discriminate.
Defined.

(** X12, witness: a charge on bob leaves alice alone. *)
Lemma deductWallet_others_witness :
  users (leaves (deductWallet (Town.charge_bob 3)) Town.w) !! 0%nat = Some Demo.alice.
Proof.
  apply (deductWallet_others (Town.charge_bob 3) Town.w 0 Demo.alice).
  - reflexivity.
  - vm_compute. discriminate.
Defined.

(** X14, witness: bob asks for the username of alice; alice asks for the
    e-mail of bob. *)
Lemma updateMyself_conflict_witness :
  settles (updateMyself Town.as_bob Town.take_alice_name) Town.w
  = Rejected (conflict "Username is exist!" "username") ∧
  settles (updateMyself Town.as_alice (<["email" := VStr "bob@example.org"]> ∅)) Town.w
  = Rejected (conflict "Email is exist!" "email").
Proof.
  split.
  - apply (updateMyself_conflict Town.as_bob Town.take_alice_name Town.w
             (<["_id" := VStr "u2"]> ∅) "u2" Demo.alice "u1");
      try (vm_compute; reflexivity); done.
  - apply (updateMyself_conflict Town.as_alice (<["email" := VStr "bob@example.org"]> ∅)
             Town.w (<["_id" := VStr "u1"]> ∅) "u1" Town.bob "u2");
      try (vm_compute; reflexivity); try done.
    left. vm_compute. reflexivity.
Defined.


(** X16, witness: an update for an account that is gone. *)
Lemma updateMyself_gone_witness :
  settles (updateMyself Town.as_ghost Town.new_handle) Town.w = Resolved (Json None) ∧
  users (leaves (updateMyself Town.as_ghost Town.new_handle) Town.w)
  = [Demo.alice; Town.bob].
Proof.
  destruct (updateMyself_gone Town.as_ghost Town.new_handle Town.w
              (<["_id" := VStr "u9"]> ∅) "u9")
    as (Hres & Hus & _).
  - reflexivity.
  - reflexivity.
  - vm_compute. reflexivity.
  - left. vm_compute. reflexivity.
  - left. vm_compute. reflexivity.
  - vm_compute. reflexivity.
  - split; [exact Hres | exact Hus].
Defined.


(** X18, witness: no authenticated user; an authenticated user whose
    account is gone. *)
Lemma me_failures_witness :
  settles (me Demo.anonymous) Town.w
  = Rejected (TypeError "Cannot read properties of undefined") ∧
  settles (me Town.as_ghost) Town.w
  = Rejected (MoleculerClientError "User not found!" 400 None None).
Proof.
  split.
  - apply (me_failures Demo.anonymous Town.w). reflexivity.
  - apply (proj2 (me_failures Town.as_ghost Town.w) (<["_id" := VStr "u9"]> ∅)).
    + reflexivity.
    + reflexivity.
    + vm_compute. reflexivity.
Defined.

(** X19, witness: bob by his provider id. *)
Lemma getbygitID_answer_witness :
  ∃ acc, acc ∈ users Town.w ∧ acc !! "git_id" = Some (VStr "88") ∧
         transformDocuments Town.bob = transformDocuments acc.
Proof.
  destruct (getbygitID_answer "88" Town.w (transformDocuments Town.bob))
    as (acc & Hin & Hgit & Heq & _).
  - vm_compute. reflexivity.
  - exists acc. split_and!; [exact Hin | exact Hgit | exact Heq].
Defined.


(** X21, witness: the short-lived token of alice, resolved at 1500 s and
    again after the hour. *)
Lemma resolveToken_after_ttl_witness :
  settles (resolveToken "tok-alice-short")
    (set_now 5200000 (leaves (resolveToken "tok-alice-short") Demo.w0))
  = Rejected (TokenExpiredError "jwt expired").
Proof.
  apply (resolveToken_after_ttl "tok-alice-short" Demo.w0 (RDoc Demo.alice) 5200000
           (Demo.alice_payload 1600) 1600).
  - reflexivity.
  - vm_compute. reflexivity.
  - vm_compute. reflexivity.
  - reflexivity.
  - vm_compute. reflexivity.
  - vm_compute. discriminate.
Defined.

(** X22, witness: alice is in the cache with a balance of 100; thirty are
    deducted; the cache still answers with the balance of 100. *)
Lemma deductWallet_keeps_cache_witness :
  settles (resolveToken "tok-alice")
    (leaves (deductWallet Demo.charge_alice) Town2.cached_alice)
  = Resolved (RDoc Demo.alice).
Proof.
  apply (deductWallet_keeps_cache Demo.charge_alice "tok-alice" Town2.cached_alice
           Demo.alice).
  vm_compute. reflexivity.
Defined.


(** X24, witness: bob registers; then a candidate with his username, and
    one with his e-mail. *)
Lemma register_twice_witness :
  settles (create Demo.anonymous (<["email" := VStr "rob@example.org"]> Demo.bob))
          (leaves (create Demo.anonymous Demo.bob) Demo.w0)
  = Rejected (conflict "Username is exist!" "username") ∧
  settles (create Demo.anonymous (<["username" := VStr "robert"]> Demo.bob))
          (leaves (create Demo.anonymous Demo.bob) Demo.w0)
  = Rejected (conflict "Email is exist!" "email").
Proof.
  split.
  - apply (register_twice Demo.anonymous Demo.bob
             (Json (Some (Demo.bob_profile "jwt(u2,5185500)"))) Demo.w0
             Demo.anonymous (<["email" := VStr "rob@example.org"]> Demo.bob)).
    + vm_compute. reflexivity.
    + vm_compute. reflexivity.
    + reflexivity.
    + vm_compute. reflexivity.
  - apply (register_twice Demo.anonymous Demo.bob
             (Json (Some (Demo.bob_profile "jwt(u2,5185500)"))) Demo.w0
             Demo.anonymous (<["username" := VStr "robert"]> Demo.bob)).
    + vm_compute. reflexivity.
    + vm_compute. reflexivity.
    + reflexivity.
    + vm_compute. reflexivity.
    + rewrite taken_find_by. vm_compute. intros [? [=]].
Defined.

(** X25, witness: bob registers and logs in. *)
Lemma register_then_login_witness :
  ∃ p, settles (login Demo.anonymous "bob@example.org" "hunter22")
               (leaves (create Demo.anonymous Demo.bob) Demo.w0)
       = Resolved (Json (Some p)) ∧
       get "_id" p = VStr (new_id (users Demo.w0)) ∧
       get "email" p = VStr "bob@example.org" ∧
       p !! "password" = None.
Proof.
  apply (register_then_login Demo.anonymous Demo.bob
           (Json (Some (Demo.bob_profile "jwt(u2,5185500)"))) Demo.w0
           Demo.anonymous "bob@example.org" "hunter22").
  - reflexivity.
  - reflexivity.
  - vm_compute. reflexivity.
  - vm_compute. reflexivity.
  - vm_compute. reflexivity.
  - vm_compute. reflexivity.
Defined.

(** X26, witness: the sign-up that the provider refuses. *)
Lemma registerwithtoken_fails_one_way_witness :
  ∃ e, settles (registerwithtoken Demo.anonymous Town.refused) Demo.w0 = Rejected e ∧
       e = MoleculerClientError "bad details!" 422 None None.
Proof.
  exists (MoleculerClientError "bad details!" 422 None None).
  split; [vm_compute; reflexivity|].
  apply (registerwithtoken_fails_one_way Demo.anonymous Town.refused Demo.w0).
  vm_compute. reflexivity.
Defined.

(** X28, witness: the profile of the registration of bob. *)
Lemma profiles_without_password_witness :
  Demo.bob_profile "jwt(u2,5185500)" !! "password" = None.
Proof.
  apply (profiles_without_password Demo.anonymous Demo.bob "" "" ∅ Demo.carol
           Demo.w0 (Json (Some (Demo.bob_profile "jwt(u2,5185500)")))).
  - left. vm_compute. reflexivity.
  - reflexivity.
Defined.

End MoreRuns.

Module SignedRuns.
#[local] Existing Instance Signed.env.


(** The same run, evaluated: the account of alice. *)
Example issued_token_run :
  settles (generateJWT Demo.alice) Demo.w0 = Resolved Signed.alice_token ∧
  settles (resolveToken Signed.alice_token) (set_now 2000000 Demo.w0)
  = Resolved (RDoc Demo.alice).
Proof. split; vm_compute; reflexivity. Qed.

End SignedRuns.

Module NamelessRuns.
#[local] Existing Instance Town2.env_nameless.

(** X9, witness: a provider profile whose name is [null]. *)
Lemma registerwithtoken_nameless_witness :
  settles (registerwithtoken Demo.anonymous Demo.carol) Demo.w0
    = Rejected (MoleculerClientError "bad details!" 422 None None) ∧
  users (leaves (registerwithtoken Demo.anonymous Demo.carol) Demo.w0)
    = users Demo.w0 ∧
  log (leaves (registerwithtoken Demo.anonymous Demo.carol) Demo.w0) =
    log Demo.w0 ++ [HttpGet "https://api.github.com/user"
                      (<["access_token" := VStr (rt_access_token Demo.carol)]>
                      (<["token_type" := VStr (rt_token_type Demo.carol)]>
                      (<["scope" := VStr (rt_scope Demo.carol)]> ∅)))].
Proof.
  apply (registerwithtoken_nameless Demo.anonymous Demo.carol Demo.w0 Town.nameless).
  - reflexivity.
  - intros s Hs. vm_compute in Hs. discriminate.
Defined.

End NamelessRuns.
